(** * Compliance assessment engine of snipping-bot: [scripts/generate-compliance-report.py]
    and [scripts/security-dashboard.py].

    Shallow embedding of the two Python scripts and the properties of the
    control assessor, the aggregator, the artifact resolver and the external
    metrics collection.

    Conventions of the embedding
    - a CSV cell read by [csv.DictReader] is a [str] or [None]: [option string];
    - a checklist row is a Python dict from column name to cell: [gmap string cell];
    - Python [int] counters are [nat]; the result of [/] (a [float]) is an exact
      rational in [Q], so rounding of the binary representation is left out;
    - exceptions are values of [exn]; code that can raise returns [result];
      code that reads the clock, prints or writes files runs in the monad [M];
    - the operating system and the Python library (os.stat, glob.glob, open,
      datetime.now, subprocess.run) are the fields of a [World]. *)

From Stdlib Require Import ZArith QArith Lqa String Ascii List.
From stdpp Require Import base option list gmap strings fin_maps.

Set Warnings "-register-all".
Open Scope string_scope.
Open Scope nat_scope.

(** ** Python run-time model *)
Module Py.

(** A cell of a [csv.DictReader] row (or any value that is a [str] or [None]). *)
Abbreviation cell := (option string).

(** [bool(c)]: [None] and the empty string are falsy. *)
Definition truthy (c : cell) : bool :=
  match c with
  | None => false
  | Some s => negb (String.eqb s "")
  end.

(** [d.get(key, default)] on a row. *)
Definition dict_get (d : gmap string cell) (key : string) (dflt : cell) : cell :=
  default dflt (d !! key).

(** [c in s] for a one-character string [c]. *)
Fixpoint char_in (c : ascii) (s : string) : bool :=
  match s with
  | EmptyString => false
  | String d s' => Ascii.eqb c d || char_in c s'
  end.

(** Exceptions raised on the paths of the two scripts. [OtherException]
    stands for any other subclass of [Exception] (carrying its message). *)
Inductive exn : Type :=
| SystemExit (code : Z)
| ZeroDivisionError
| FileNotFoundError
| TimeoutExpired
| SubprocessError
| JSONDecodeError
| AttributeError
| TypeError
| PermissionError
| IsADirectoryError
| UnicodeDecodeError
| OtherException (msg : string).

Inductive result (A : Type) : Type :=
| Ok (a : A)
| Raise (e : exn).
Arguments Ok {A} a.
Arguments Raise {A} e.

#[global] Instance result_ret : MRet result := λ A a, Ok a.
#[global] Instance result_bind : MBind result := λ A B f r,
  match r with
  | Ok a => f a
  | Raise e => Raise e
  end.

(** [int.__truediv__]: [a / b] on two ints. *)
Definition inject_nat (n : nat) : Q := inject_Z (Z.of_nat n).

Definition truediv (a b : nat) : result Q :=
  if Nat.eqb b 0 then Raise ZeroDivisionError
  else Ok (inject_nat a / inject_nat b)%Q.

(** *** The world outside the interpreter *)

Inductive entry_kind : Type := RegularFile | Directory.

(** Outcome of [os.stat(path)]: the entry, [FileNotFoundError], or another
    [OSError] such as [PermissionError]. *)
Inductive stat_outcome : Type :=
| Stat (k : entry_kind)
| ENOENT
| EACCES.

(** Outcome of opening the checklist and iterating [csv.DictReader] over it. *)
Inductive csv_outcome : Type :=
| CsvRows (rows : list (gmap string cell))
| CsvNotFound
| CsvError (msg : string).

(** A parsed JSON document. *)
Inductive json : Type :=
| JNull
| JBool (b : bool)
| JNum (z : Z)
| JStr (s : string)
| JArr (l : list json)
| JObj (l : list (string * json)).

(** The captured standard output of a child process, classified by
    whether [json.loads] accepts it. *)
Inductive output_text : Type :=
| NotJson (raw : string)
| Json (v : json).

(** Outcome of [subprocess.run(cmd, capture_output=True, text=True, timeout=60)].
    [ProcRaises e] is any other exception of the call: [PermissionError] or
    another [OSError] when the program cannot be started,
    [UnicodeDecodeError] when its output is not text, and so on. *)
Inductive proc_outcome : Type :=
| ProcNotFound                                   (* FileNotFoundError: no such program *)
| ProcTimeout                                    (* subprocess.TimeoutExpired *)
| ProcError                                      (* another subprocess.SubprocessError *)
| Completed (returncode : Z) (stdout : output_text)
| ProcRaises (e : exn).

(** Outcome of [with open(name, "w", encoding="utf-8") as f:] followed by
    the writes to [f]: the content is written; or [open] raises (the file
    is left as it was); or a write raises after [open] has created or
    emptied the file. *)
Inductive write_outcome : Type :=
| Written
| OpenRaises (e : exn)
| WriteRaises (e : exn).

(** An instant as returned by [datetime.now()]. *)
Abbreviation datetime := nat (only parsing).

Record World : Type := {
  os_stat : string → stat_outcome;
  glob_glob : string → list string;          (* glob.glob(pattern, recursive=True) *)
  open_csv : string → csv_outcome;
  clock : nat → datetime;                     (* value of the n-th call of datetime.now() *)
  subprocess_run : list string → proc_outcome;
  open_write : string → write_outcome
}.

(** [os.path.exists]: [os.stat] succeeded; every [OSError] gives [False]. *)
Definition os_path_exists (w : World) (path : string) : bool :=
  match os_stat w path with
  | Stat _ => true
  | ENOENT | EACCES => false
  end.

(** *** Effects: clock reads and an output trace, with exceptions *)

Record State (E : Type) : Type := {
  now_calls : nat;
  trace : list E
}.
Arguments now_calls {E} _.
Arguments trace {E} _.

Definition M (E A : Type) : Type := State E → result A * State E.

#[global] Instance M_ret {E} : MRet (M E) := λ A a st, (Ok a, st).
#[global] Instance M_bind {E} : MBind (M E) := λ A B f m st,
  match m st with
  | (Ok a, st') => f a st'
  | (Raise e, st') => (Raise e, st')
  end.

Definition lift {E A} (r : result A) : M E A := λ st, (r, st).

Definition raise {E A} (e : exn) : M E A := lift (Raise e).

Definition datetime_now {E} (w : World) : M E datetime := λ st,
  (Ok (clock w (now_calls st)),
   {| now_calls := S (now_calls st); trace := trace st |}).

Definition emit {E} (e : E) : M E unit := λ st,
  (Ok tt, {| now_calls := now_calls st; trace := trace st ++ [e] |}).

(** Writing a file: [written] is the event of the complete file,
    [truncated] the event of a file left empty or incomplete. *)
Definition write_file {E} (w : World) (name : string) (written truncated : E) : M E unit :=
  match open_write w name with
  | Written => emit written
  | OpenRaises e => raise e
  | WriteRaises e => emit truncated;; raise e
  end.

(** [sys.exit(code)] raises [SystemExit], which [except Exception] does not catch. *)
Definition sys_exit {E A} (code : Z) : M E A := raise (SystemExit code).

Definition init {E} : State E := {| now_calls := 0; trace := [] |}.

End Py.

Import Py.

(** ** scripts/generate-compliance-report.py *)
Module ComplianceReport.

Abbreviation ControlRecord := (gmap string cell).

(** [check_artifact_exists(artifact_path)] *)
Definition check_artifact_exists (w : World) (artifact_path : cell) : bool :=
  match artifact_path with
  | None => false
  | Some p =>
      if String.eqb p "" then false
      else if char_in "*" p || char_in "?" p then
        let matches := glob_glob w p in
        Nat.ltb 0 (length matches)
      else os_path_exists w p
  end.

Record Assessment : Type := {
  layer_number : cell;
  layer_name : cell;
  control_group : cell;
  control : cell;
  status : string;
  reason : string;
  artifact : cell;
  component : cell;
  test_category : cell;
  metric_kpi : cell;
  evidence : cell
}.

(** [assess_control(control)] *)
Definition assess_control (w : World) (row : ControlRecord) : Assessment :=
  let artifact := dict_get row "Policy/Config Artifact" (Some "") in
  let status_reason :=
    if negb (truthy artifact) then ("Not Applicable", "No artifact specified")
    else if check_artifact_exists w artifact then ("Implemented", "Artifact found")
    else ("Missing", "Artifact not found") in
  {| layer_number := dict_get row "Layer #" (Some "");
     layer_name := dict_get row "Layer Name" (Some "");
     control_group := dict_get row "Control Group" (Some "");
     control := dict_get row "Control" (Some "");
     status := fst status_reason;
     reason := snd status_reason;
     artifact := artifact;
     component := dict_get row "Component (Rust/K8s/Web3)" (Some "");
     test_category := dict_get row "Test Category" (Some "");
     metric_kpi := dict_get row "Metric/KPI" (Some "");
     evidence := dict_get row "Evidence to Store" (Some "") |}.

(** One entry of [layer_stats]: the dict
    [{"implemented": 0, "missing": 0, "not_applicable": 0}]. *)
Record LayerStats : Type := {
  l_implemented : nat;
  l_missing : nat;
  l_not_applicable : nat
}.

Definition new_layer : LayerStats :=
  {| l_implemented := 0; l_missing := 0; l_not_applicable := 0 |}.

Definition incr_implemented (s : LayerStats) : LayerStats :=
  {| l_implemented := l_implemented s + 1; l_missing := l_missing s;
     l_not_applicable := l_not_applicable s |}.

Definition incr_missing (s : LayerStats) : LayerStats :=
  {| l_implemented := l_implemented s; l_missing := l_missing s + 1;
     l_not_applicable := l_not_applicable s |}.

Definition incr_not_applicable (s : LayerStats) : LayerStats :=
  {| l_implemented := l_implemented s; l_missing := l_missing s;
     l_not_applicable := l_not_applicable s + 1 |}.

(** [sum(1 for a in assessments if a["status"] == s)] *)
Definition count_status (s : string) (assessments : list Assessment) : nat :=
  sum_list ((λ _, 1) <$> List.filter (λ a, String.eqb (status a) s) assessments).

(** Body of the loop [for assessment in assessments] that groups by layer. *)
Definition layer_step (layer_stats : gmap cell LayerStats) (assessment : Assessment)
  : gmap cell LayerStats :=
  let layer_num := layer_number assessment in
  let layer_stats :=
    match layer_stats !! layer_num with
    | None => <[layer_num := new_layer]> layer_stats
    | Some _ => layer_stats
    end in
  if String.eqb (status assessment) "Implemented" then
    alter incr_implemented layer_num layer_stats
  else if String.eqb (status assessment) "Missing" then
    alter incr_missing layer_num layer_stats
  else if String.eqb (status assessment) "Not Applicable" then
    alter incr_not_applicable layer_num layer_stats
  else layer_stats.

(** [(implemented / applicable * 100) if applicable > 0 else 0] *)
Definition rate_of (implemented applicable : nat) : result Q :=
  if Nat.ltb 0 applicable then
    q ← truediv implemented applicable; mret (q * 100)%Q
  else mret 0%Q.

Record Summary : Type := {
  generated_at : datetime;
  total_controls : nat;
  implemented : nat;
  missing : nat;
  not_applicable : nat;
  applicable : nat;
  compliance_rate : Q;
  layer_statistics : gmap cell LayerStats
}.

(** [generate_summary(assessments)] *)
Definition generate_summary {E} (w : World) (assessments : list Assessment) : M E Summary :=
  let total := length assessments in
  let implemented := count_status "Implemented" assessments in
  let missing := count_status "Missing" assessments in
  let not_applicable := count_status "Not Applicable" assessments in
  let applicable := implemented + missing in
  compliance_rate ← lift (rate_of implemented applicable);
  let layer_stats := fold_left layer_step assessments ∅ in
  now ← datetime_now w;
  mret {| generated_at := now;
          total_controls := total;
          implemented := implemented;
          missing := missing;
          not_applicable := not_applicable;
          applicable := applicable;
          compliance_rate := compliance_rate;
          layer_statistics := layer_stats |}.

(** The text report, as the values its f-strings interpolate, in order of
    appearance; the fixed headings between them are left out.
    [t_layers] has one line per entry of [summary["layer_statistics"]]
    (a finite map: the order of the lines is that of [map_to_list], not
    the insertion order of the Python dict). *)
Record LayerLine : Type := {
  ll_layer_num : cell;
  ll_implemented : nat;
  ll_applicable : nat;
  ll_rate : Q
}.

Record MissingControl : Type := {
  mc_layer_number : cell;
  mc_control_group : cell;
  mc_control : cell;
  mc_artifact : cell
}.

Record TextReport : Type := {
  t_generated : datetime;
  t_total_controls : nat;
  t_implemented : nat;
  t_missing : nat;
  t_not_applicable : nat;
  t_compliance_rate : Q;
  t_layers : list LayerLine;
  t_missing_controls : list MissingControl
}.

(** Body of the loop over [summary["layer_statistics"].items()]. *)
Definition layer_line (item : cell * LayerStats) : result LayerLine :=
  let '(layer_num, stats) := item in
  let total_layer := l_implemented stats + l_missing stats + l_not_applicable stats in
  let applicable_layer := l_implemented stats + l_missing stats in
  rate ← rate_of (l_implemented stats) applicable_layer;
  mret {| ll_layer_num := layer_num;
          ll_implemented := l_implemented stats;
          ll_applicable := applicable_layer;
          ll_rate := rate |}.

(** [generate_text_report(assessments, summary)] *)
Definition generate_text_report (assessments : list Assessment) (summary : Summary)
  : result TextReport :=
  layers ← mapM layer_line (map_to_list (layer_statistics summary));
  let missing_controls :=
    List.filter (λ a, String.eqb (status a) "Missing") assessments in
  mret {| t_generated := generated_at summary;
          t_total_controls := total_controls summary;
          t_implemented := implemented summary;
          t_missing := missing summary;
          t_not_applicable := not_applicable summary;
          t_compliance_rate := compliance_rate summary;
          t_layers := layers;
          t_missing_controls :=
            (λ c, {| mc_layer_number := layer_number c;
                     mc_control_group := control_group c;
                     mc_control := control c;
                     mc_artifact := artifact c |}) <$> missing_controls |}.

(** [generate_json_report]: the document handed to [json.dumps]. *)
Record JsonReport : Type := {
  j_summary : Summary;
  j_assessments : list Assessment
}.

Definition generate_json_report (assessments : list Assessment) (summary : Summary)
  : JsonReport :=
  {| j_summary := summary; j_assessments := assessments |}.

Inductive Content : Type :=
| TextContent (r : TextReport)
| JsonContent (r : JsonReport).

Inductive Event : Type :=
| Print (s : string)
| PrintReport (r : TextReport)
| WriteFile (name : string) (c : Content)
| Truncated (name : string).

(** [load_checklist(filename)] *)
Definition load_checklist (w : World) (filename : string) : M Event (list ControlRecord) :=
  match open_csv w filename with
  | CsvRows rows => mret rows
  | CsvNotFound =>
      emit (Print ("Error: Checklist file '" ++ filename ++ "' not found."));;
      sys_exit 1
  | CsvError msg =>
      emit (Print ("Error reading checklist: " ++ msg));;
      sys_exit 1
  end.

(** [main()] *)
Definition main (w : World) : M Event unit :=
  let checklist_file := "security_layers_checklist.csv" in
  if negb (os_path_exists w checklist_file) then
    emit (Print ("Error: Checklist file '" ++ checklist_file ++ "' not found."));;
    sys_exit 1
  else
    checklist ← load_checklist w checklist_file;
    let assessments := assess_control w <$> checklist in
    summary ← generate_summary w assessments;
    text_report ← lift (generate_text_report assessments summary);
    let json_report := generate_json_report assessments summary in
    write_file w "security-compliance-report.txt"
      (WriteFile "security-compliance-report.txt" (TextContent text_report))
      (Truncated "security-compliance-report.txt");;
    write_file w "security-compliance-report.json"
      (WriteFile "security-compliance-report.json" (JsonContent json_report))
      (Truncated "security-compliance-report.json");;
    emit (PrintReport text_report);;
    emit (Print (String "010"%char "Reports saved:"));;
    emit (Print "- security-compliance-report.txt");;
    emit (Print "- security-compliance-report.json").

End ComplianceReport.

(** ** scripts/security-dashboard.py *)
Module SecurityDashboard.

Abbreviation ControlRecord := (gmap string cell).

(** A value stored in one of the metric groups: an [int] or a [str]. *)
Inductive pyval : Type :=
| PInt (n : nat)
| PStr (s : string).

(** The object [self] after [__init__]. *)
Record Self : Type := {
  checklist_file : string;
  checklist : list ControlRecord
}.

(** The dict built by [run_security_audit]. *)
Record AuditMetrics : Type := {
  timestamp : datetime;
  vulnerabilities : gmap string pyval;
  compliance : gmap string pyval;
  dependencies : gmap string pyval;
  secrets : gmap string pyval
}.

Record LayerMetrics : Type := {
  l_total : nat;
  l_implemented : nat;
  l_missing : nat
}.

Record ComplianceMetrics : Type := {
  total_controls : nat;
  implemented_controls : nat;
  missing_controls : nat;
  compliance_rate : Q;
  layer_metrics : gmap cell LayerMetrics
}.

(** The HTML page, as the values its f-string slots interpolate, in order
    of appearance. The closing part of the page is appended from a plain
    string literal (no [f] prefix), so it is constant text: [h_tail] holds
    its four lines that name metrics. *)
Record LayerRow : Type := {
  r_layer_num : cell;
  r_layer_name : string;
  r_status_class : string;
  r_rate : Q;
  r_implemented : nat;
  r_total : nat
}.

Record HtmlReport : Type := {
  h_generated : datetime;
  h_compliance_rate : Q;
  h_implemented_controls : nat;
  h_total_controls : nat;
  h_vulnerabilities_count : pyval;
  h_vulnerabilities_critical : pyval;
  h_missing_controls : nat;
  h_rows : list LayerRow;
  h_tail : list string
}.

(** The document handed to [json.dump] by [generate_dashboard]. *)
Record DashboardData : Type := {
  d_timestamp : datetime;
  d_audit_metrics : AuditMetrics;
  d_compliance_metrics : ComplianceMetrics
}.

Inductive Content : Type :=
| HtmlContent (r : HtmlReport)
| JsonContent (r : DashboardData).

(** Console and file output. [PrintSummary] is the four closing lines:
    compliance rate, implemented/total, missing, critical vulnerabilities. *)
Inductive Event : Type :=
| Print (s : string)
| PrintSummary (rate : Q) (implemented total missing : nat) (critical : pyval)
| WriteFile (name : string) (c : Content)
| Truncated (name : string).

(** [SecurityDashboard.load_checklist(self)] *)
Definition load_checklist (w : World) (checklist_file : string)
  : M Event (list ControlRecord) :=
  match open_csv w checklist_file with
  | CsvRows rows => mret rows
  | CsvNotFound =>
      emit (Print ("Error: Checklist file '" ++ checklist_file ++ "' not found."));;
      sys_exit 1
  | CsvError msg =>
      emit (Print ("Error reading checklist: " ++ msg));;
      sys_exit 1
  end.

(** [SecurityDashboard.__init__(self, checklist_file)] *)
Definition new (w : World) (checklist_file : string) : M Event Self :=
  checklist ← load_checklist w checklist_file;
  mret {| checklist_file := checklist_file; checklist := checklist |}.

(** [subprocess.run(...)], raising as Python does. *)
Definition run (w : World) (cmd : list string) : result (Z * output_text) :=
  match subprocess_run w cmd with
  | ProcNotFound => Raise FileNotFoundError
  | ProcTimeout => Raise TimeoutExpired
  | ProcError => Raise SubprocessError
  | Completed returncode stdout => Ok (returncode, stdout)
  | ProcRaises e => Raise e
  end.

(** [json.loads(text)] *)
Definition json_loads (text : output_text) : result json :=
  match text with
  | NotJson _ => Raise JSONDecodeError
  | Json v => Ok v
  end.

Fixpoint assoc (key : string) (l : list (string * json)) : option json :=
  match l with
  | [] => None
  | (k, v) :: l' => if String.eqb key k then Some v else assoc key l'
  end.

(** [v.get(key, default)]: only a JSON object (a dict) has the method;
    [JObj l] lists the items of the dict, each key once. *)
Definition json_get (v : json) (key : string) (dflt : json) : result json :=
  match v with
  | JObj l => Ok (default dflt (assoc key l))
  | _ => Raise AttributeError
  end.

(** [len(v)] *)
Definition py_len (v : json) : result nat :=
  match v with
  | JArr l => Ok (length l)
  | JObj l => Ok (length l)
  | JStr s => Ok (String.length s)
  | _ => Raise TypeError
  end.

(** The elements visited by [for x in v]. *)
Definition py_iter (v : json) : result (list json) :=
  match v with
  | JArr l => Ok l
  | JObj l => Ok ((λ kv, JStr (fst kv)) <$> l)
  | JStr s => Ok ((λ c, JStr (String c EmptyString)) <$> list_ascii_of_string s)
  | _ => Raise TypeError
  end.

(** [v == "critical"] *)
Definition is_critical (v : json) : bool :=
  match v with
  | JStr s => String.eqb s "critical"
  | _ => false
  end.

(** [[v for v in items if v.get("severity") == "critical"]] *)
Fixpoint critical_only (items : list json) : result (list json) :=
  match items with
  | [] => Ok []
  | v :: rest =>
      severity ← json_get v "severity" JNull;
      kept ← critical_only rest;
      mret (if is_critical severity then v :: kept else kept)
  end.

(** [try: body except (TimeoutExpired, SubprocessError, FileNotFoundError): handler].
    In both blocks only [subprocess.run], the first statement, can raise
    one of the named exceptions, so the handler finds the metric group as
    it was before the block. *)
Definition caught (e : exn) : bool :=
  match e with
  | TimeoutExpired | SubprocessError | FileNotFoundError => true
  | _ => false
  end.

Definition try_except {A} (body : result A) (handler : A) : result A :=
  match body with
  | Ok a => Ok a
  | Raise e => if caught e then Ok handler else Raise e
  end.

(** The [cargo audit] block: the entries of [metrics["vulnerabilities"]]. *)
Definition audit_block (w : World) (group : gmap string pyval)
  : result (gmap string pyval) :=
  try_except
    ('(returncode, stdout) ← run w ["cargo"; "audit"; "--json"];
     if Z.eqb returncode 0 then
       audit_data ← json_loads stdout;
       found ← json_get audit_data "vulnerabilities" (JArr []);
       count ← py_len found;
       let group := <["count" := PInt count]> group in
       found ← json_get audit_data "vulnerabilities" (JArr []);
       items ← py_iter found;
       critical ← critical_only items;
       mret (<["critical" := PInt (length critical)]> group)
     else mret (<["error" := PStr "Cargo audit failed"]> group))
    (<["error" := PStr "Cargo audit not available"]> group).

(** The [cargo deny] block: the entries of [metrics["compliance"]]. *)
Definition deny_block (w : World) (group : gmap string pyval)
  : result (gmap string pyval) :=
  try_except
    ('(returncode, stdout) ← run w ["cargo"; "deny"; "check"; "--format"; "json"];
     if Z.eqb returncode 0 then
       deny_data ← json_loads stdout;
       licenses ← json_get deny_data "licenses" (JArr []);
       license_issues ← py_len licenses;
       let group := <["license_issues" := PInt license_issues]> group in
       bans ← json_get deny_data "bans" (JArr []);
       ban_issues ← py_len bans;
       mret (<["ban_issues" := PInt ban_issues]> group)
     else mret (<["error" := PStr "Cargo deny failed"]> group))
    (<["error" := PStr "Cargo deny not available"]> group).

(** [run_security_audit(self)] *)
Definition run_security_audit (w : World) : M Event AuditMetrics :=
  now ← datetime_now w;
  vulnerabilities ← lift (audit_block w ∅);
  compliance ← lift (deny_block w ∅);
  mret {| timestamp := now;
          vulnerabilities := vulnerabilities;
          compliance := compliance;
          dependencies := ∅;
          secrets := ∅ |}.

(** [check_artifact_exists(self, artifact_path)] *)
Definition check_artifact_exists (w : World) (artifact_path : cell) : bool :=
  match artifact_path with
  | None => false
  | Some p =>
      if String.eqb p "" then false
      else if char_in "*" p || char_in "?" p then
        let matches := glob_glob w p in
        Nat.ltb 0 (length matches)
      else os_path_exists w p
  end.

(** Body of the first loop of [calculate_compliance_metrics]; the state is
    [(implemented_controls, missing_controls)]. *)
Definition count_step (w : World) (acc : nat * nat) (row : ControlRecord) : nat * nat :=
  let '(implemented_controls, missing_controls) := acc in
  let artifact := dict_get row "Policy/Config Artifact" (Some "") in
  if truthy artifact && check_artifact_exists w artifact then
    (implemented_controls + 1, missing_controls)
  else if truthy artifact then
    (implemented_controls, missing_controls + 1)
  else (implemented_controls, missing_controls).

Definition new_layer : LayerMetrics :=
  {| l_total := 0; l_implemented := 0; l_missing := 0 |}.

Definition incr_total (m : LayerMetrics) : LayerMetrics :=
  {| l_total := l_total m + 1; l_implemented := l_implemented m; l_missing := l_missing m |}.

Definition incr_implemented (m : LayerMetrics) : LayerMetrics :=
  {| l_total := l_total m; l_implemented := l_implemented m + 1; l_missing := l_missing m |}.

Definition incr_missing (m : LayerMetrics) : LayerMetrics :=
  {| l_total := l_total m; l_implemented := l_implemented m; l_missing := l_missing m + 1 |}.

(** Body of the second loop of [calculate_compliance_metrics]. *)
Definition layer_step (w : World) (layer_metrics : gmap cell LayerMetrics)
  (row : ControlRecord) : gmap cell LayerMetrics :=
  let layer_num := dict_get row "Layer #" (Some "Unknown") in
  let layer_metrics :=
    match layer_metrics !! layer_num with
    | None => <[layer_num := new_layer]> layer_metrics
    | Some _ => layer_metrics
    end in
  let layer_metrics := alter incr_total layer_num layer_metrics in
  let artifact := dict_get row "Policy/Config Artifact" (Some "") in
  if truthy artifact && check_artifact_exists w artifact then
    alter incr_implemented layer_num layer_metrics
  else if truthy artifact then
    alter incr_missing layer_num layer_metrics
  else layer_metrics.

(** [(implemented / total * 100) if total > 0 else 0] *)
Definition rate_of (implemented total : nat) : result Q :=
  if Nat.ltb 0 total then
    q ← truediv implemented total; mret (q * 100)%Q
  else mret 0%Q.

(** [calculate_compliance_metrics(self)] *)
Definition calculate_compliance_metrics (w : World) (self : Self)
  : result ComplianceMetrics :=
  let total_controls := length (checklist self) in
  let '(implemented_controls, missing_controls) :=
    fold_left (count_step w) (checklist self) (0, 0) in
  let layer_metrics := fold_left (layer_step w) (checklist self) ∅ in
  compliance_rate ← rate_of implemented_controls total_controls;
  mret {| total_controls := total_controls;
          implemented_controls := implemented_controls;
          missing_controls := missing_controls;
          compliance_rate := compliance_rate;
          layer_metrics := layer_metrics |}.

(** [get_layer_name(self, layer_num)] *)
Definition layer_names : list (string * string) :=
  [ ("1", "Governance & Policy");
    ("2", "Risk & Threat Modeling");
    ("3", "Secure SDLC & Supply Chain");
    ("4", "Identity & Access (IAM)");
    ("5", "Secrets Management");
    ("6", "Key & Cryptography");
    ("7", "Network Segmentation & Transport");
    ("8", "Perimeter & API Gateway");
    ("9", "Host/Endpoint Hardening");
    ("10", "Containers & Orchestration");
    ("11", "Cloud/IaaS Security");
    ("12", "Data Security");
    ("13", "Application Security");
    ("14", "Protocol/API Security");
    ("15", "Messaging & Event Security");
    ("16", "Database Security");
    ("17", "Wallet/Custody & Key Ops (Web3)");
    ("18", "Oracle & Market Data Integrity (Web3)");
    ("19", "Privacy & Compliance");
    ("20", "Observability & Telemetry Security");
    ("21", "Detection & Response");
    ("22", "Resilience, Availability & Chaos") ].

Definition get_layer_name (layer_num : cell) : string :=
  default "Unknown Layer"
    (s ← layer_num; (list_to_map layer_names : gmap string string) !! s).

(** Body of the loop over [compliance_metrics["layer_metrics"].items()]. *)
Definition layer_row (item : cell * LayerMetrics) : result LayerRow :=
  let '(layer_num, metrics) := item in
  rate ← rate_of (l_implemented metrics) (l_total metrics);
  let status_class :=
    if Qle_bool 90 rate then "compliant"
    else if Qle_bool 70 rate then "warning"
    else "non-compliant" in
  mret {| r_layer_num := layer_num;
          r_layer_name := get_layer_name layer_num;
          r_status_class := status_class;
          r_rate := rate;
          r_implemented := l_implemented metrics;
          r_total := l_total metrics |}.

Definition html_tail : list string :=
  [ "<p>Critical Vulnerabilities: {audit_metrics['vulnerabilities'].get('critical', 0)}</p>";
    "<p>Total Vulnerabilities: {audit_metrics['vulnerabilities'].get('count', 'N/A')}</p>";
    "<p>License Issues: {audit_metrics['compliance'].get('license_issues', 'N/A')}</p>";
    "<p>Ban Issues: {audit_metrics['compliance'].get('ban_issues', 'N/A')}</p>" ].

(** [generate_html_report(self, audit_metrics, compliance_metrics)] *)
Definition generate_html_report (w : World) (audit_metrics : AuditMetrics)
  (compliance_metrics : ComplianceMetrics) : M Event HtmlReport :=
  now ← datetime_now w;
  rows ← lift (mapM layer_row (map_to_list (layer_metrics compliance_metrics)));
  mret {| h_generated := now;
          h_compliance_rate := compliance_rate compliance_metrics;
          h_implemented_controls := implemented_controls compliance_metrics;
          h_total_controls := total_controls compliance_metrics;
          h_vulnerabilities_count :=
            default (PStr "N/A") (vulnerabilities audit_metrics !! "count");
          h_vulnerabilities_critical :=
            default (PInt 0) (vulnerabilities audit_metrics !! "critical");
          h_missing_controls := missing_controls compliance_metrics;
          h_rows := rows;
          h_tail := html_tail |}.

(** [generate_dashboard(self)] *)
Definition generate_dashboard (w : World) (self : Self) : M Event unit :=
  emit (Print "Generating security dashboard...");;
  audit_metrics ← run_security_audit w;
  compliance_metrics ← lift (calculate_compliance_metrics w self);
  html_report ← generate_html_report w audit_metrics compliance_metrics;
  write_file w "security-dashboard.html"
    (WriteFile "security-dashboard.html" (HtmlContent html_report))
    (Truncated "security-dashboard.html");;
  now ← datetime_now w;
  let dashboard_data :=
    {| d_timestamp := now;
       d_audit_metrics := audit_metrics;
       d_compliance_metrics := compliance_metrics |} in
  write_file w "security-dashboard.json"
    (WriteFile "security-dashboard.json" (JsonContent dashboard_data))
    (Truncated "security-dashboard.json");;
  emit (Print "Security dashboard generated successfully!");;
  emit (Print "- security-dashboard.html");;
  emit (Print "- security-dashboard.json");;
  emit (PrintSummary (compliance_rate compliance_metrics)
          (implemented_controls compliance_metrics)
          (total_controls compliance_metrics)
          (missing_controls compliance_metrics)
          (default (PInt 0) (vulnerabilities audit_metrics !! "critical"))).

(** [main()] *)
Definition main (w : World) : M Event unit :=
  dashboard ← new w "security_layers_checklist.csv";
  generate_dashboard w dashboard.

End SecurityDashboard.

(** ** Vocabulary of the statements: the notions of the specification in
    its own words, and the pure parts of the loop bodies *)
Module Spec.

(** "artifact_spec is empty": unset, or the empty string. *)
Definition is_empty (artifact_spec : cell) : Prop :=
  artifact_spec = None ∨ artifact_spec = Some "".

(** The three rules of the Control Assessor: status and reason from the
    artifact spec and the answer of the Artifact Resolver. *)
Definition assess (artifact_spec : cell) (artifact_exists : bool) : string * string :=
  match artifact_spec with
  | None | Some "" => ("Not Applicable", "No artifact specified")
  | Some _ =>
      if artifact_exists then ("Implemented", "Artifact found")
      else ("Missing", "Artifact not found")
  end.

(** "implemented / applicable * 100 when applicable > 0, else exactly 0". *)
Definition rate (implemented applicable : nat) : Q :=
  match applicable with
  | O => 0
  | S _ => inject_nat implemented / inject_nat applicable * 100
  end.

(** The glob metacharacters of Python's [glob] module ([glob.has_magic]). *)
Definition has_magic (p : string) : Prop :=
  "*"%char ∈ list_ascii_of_string p ∨ "?"%char ∈ list_ascii_of_string p
  ∨ "["%char ∈ list_ascii_of_string p.

(** The wildcard characters the scripts test for. *)
Definition has_wildcard (p : string) : Prop :=
  "*"%char ∈ list_ascii_of_string p ∨ "?"%char ∈ list_ascii_of_string p.

(** The status strings of an [Assessment]. *)
Definition valid (a : ComplianceReport.Assessment) : Prop :=
  ComplianceReport.status a ∈ ["Implemented"; "Missing"; "Not Applicable"].

(** Number of assessments with a given status. *)
Definition with_status (s : string) (l : list ComplianceReport.Assessment) : nat :=
  length (List.filter (λ a, String.eqb (ComplianceReport.status a) s) l).

(** Number of assessments that carry the layer key [k]. *)
Definition layer_size (k : cell) (l : list ComplianceReport.Assessment) : nat :=
  length (List.filter (λ a, bool_decide (ComplianceReport.layer_number a = k)) l).

(** Number of assessments of layer [k] with status [s]. *)
Definition in_layer (k : cell) (s : string) (l : list ComplianceReport.Assessment) : nat :=
  length (List.filter
            (λ a, bool_decide (ComplianceReport.layer_number a = k)
                  && String.eqb (ComplianceReport.status a) s) l).

(** The counter of a [LayerStats] that belongs to status [s], incremented. *)
Definition tally (s : string) (ls : ComplianceReport.LayerStats)
  : ComplianceReport.LayerStats :=
  if String.eqb s "Implemented" then ComplianceReport.incr_implemented ls
  else if String.eqb s "Missing" then ComplianceReport.incr_missing ls
  else if String.eqb s "Not Applicable" then ComplianceReport.incr_not_applicable ls
  else ls.

(** The layer key the dashboard gives to a checklist row. *)
Definition dashboard_key (row : gmap string cell) : cell :=
  dict_get row "Layer #" (Some "Unknown").

(** Number of checklist rows of layer [k], and of those whose assessment
    has status [s]. *)
Definition rows_of (k : cell) (rows : list (gmap string cell)) : nat :=
  length (List.filter (λ r, bool_decide (dashboard_key r = k)) rows).

Definition rows_of_with (w : World) (k : cell) (s : string)
  (rows : list (gmap string cell)) : nat :=
  length (List.filter
            (λ r, bool_decide (dashboard_key r = k)
                  && String.eqb (ComplianceReport.status
                                   (ComplianceReport.assess_control w r)) s) rows).

(** The counters of a [LayerMetrics] that a row with status [s] increments. *)
Definition dashboard_tally (s : string) (lm : SecurityDashboard.LayerMetrics)
  : SecurityDashboard.LayerMetrics :=
  let lm := SecurityDashboard.incr_total lm in
  if String.eqb s "Implemented" then SecurityDashboard.incr_implemented lm
  else if String.eqb s "Missing" then SecurityDashboard.incr_missing lm
  else lm.

(** The line of the text report for one layer entry, and the row of the
    HTML table for one layer entry, with the rate given by [rate]. *)
Definition line_of (item : cell * ComplianceReport.LayerStats)
  : ComplianceReport.LayerLine :=
  let ls := snd item in
  {| ComplianceReport.ll_layer_num := fst item;
     ComplianceReport.ll_implemented := ComplianceReport.l_implemented ls;
     ComplianceReport.ll_applicable :=
       ComplianceReport.l_implemented ls + ComplianceReport.l_missing ls;
     ComplianceReport.ll_rate :=
       rate (ComplianceReport.l_implemented ls)
         (ComplianceReport.l_implemented ls + ComplianceReport.l_missing ls) |}.

Definition row_of (item : cell * SecurityDashboard.LayerMetrics)
  : SecurityDashboard.LayerRow :=
  let lm := snd item in
  let r := rate (SecurityDashboard.l_implemented lm) (SecurityDashboard.l_total lm) in
  {| SecurityDashboard.r_layer_num := fst item;
     SecurityDashboard.r_layer_name := SecurityDashboard.get_layer_name (fst item);
     SecurityDashboard.r_status_class :=
       if Qle_bool 90 r then "compliant"
       else if Qle_bool 70 r then "warning" else "non-compliant";
     SecurityDashboard.r_rate := r;
     SecurityDashboard.r_implemented := SecurityDashboard.l_implemented lm;
     SecurityDashboard.r_total := SecurityDashboard.l_total lm |}.

(** Sum of one counter over all layers. *)
Definition sum_layers {V} (field : V → nat) (m : gmap cell V) : nat :=
  map_fold (λ _ v acc, field v + acc) 0 m.

(** [after] is [before] with exactly one of the three counters incremented,
    the other two unchanged. *)
Definition one_incremented (before after : nat * nat * nat) : Prop :=
  let '(i, m, n) := before in
  after = (S i, m, n) ∨ after = (i, S m, n) ∨ after = (i, m, S n).

(** A JSON object, and a JSON object whose entry "severity" is the string
    "critical". *)
Definition is_object (v : json) : bool :=
  match v with
  | JObj _ => true
  | _ => false
  end.

Definition critical_entry (v : json) : bool :=
  match v with
  | JObj l =>
      match SecurityDashboard.assoc "severity" l with
      | Some (JStr s) => String.eqb s "critical"
      | _ => false
      end
  | _ => false
  end.




End Spec.

(** ** Concrete worlds and checklists used as test inputs *)
Module Examples.

(** Nothing on disk, no tool installed; the n-th clock reading is [n]. *)
Definition nothing : World :=
  {| os_stat := λ _, ENOENT;
     glob_glob := λ _, [];
     open_csv := λ _, CsvNotFound;
     clock := λ n, n;
     subprocess_run := λ _, ProcNotFound;
     open_write := λ _, Written |}.

(** One file [docs/confa.yaml]; the pattern [docs/conf[ab].yaml] matches it. *)
Definition w_bracket : World :=
  {| os_stat := λ p, if String.eqb p "docs/confa.yaml" then Stat RegularFile else ENOENT;
     glob_glob := λ pat,
       if String.eqb pat "docs/conf[ab].yaml" then ["docs/confa.yaml"] else [];
     open_csv := λ _, CsvNotFound;
     clock := λ n, n;
     subprocess_run := λ _, ProcNotFound;
     open_write := λ _, Written |}.

(** [secrets/vault-policy.hcl] lies in a directory that may not be searched. *)
Definition w_denied : World :=
  {| os_stat := λ p, if String.eqb p "secrets/vault-policy.hcl" then EACCES else ENOENT;
     glob_glob := λ _, [];
     open_csv := λ _, CsvNotFound;
     clock := λ n, n;
     subprocess_run := λ _, ProcNotFound;
     open_write := λ _, Written |}.

Definition row_vault : gmap string cell :=
  <["Layer #" := Some "5"]>
  (<["Layer Name" := Some "Secrets Management"]>
  (<["Policy/Config Artifact" := Some "secrets/vault-policy.hcl"]> ∅)).

(** The end-to-end scenario: the checklist file holds three controls,
    (a) without artifact, (b) with the existing directory [policies],
    (c) with a glob pattern that matches nothing. *)
Definition row_a : gmap string cell :=
  <["Layer #" := Some "1"]> (<["Control" := Some "Security charter"]>
  (<["Policy/Config Artifact" := Some ""]> ∅)).

Definition row_b : gmap string cell :=
  <["Layer #" := Some "1"]> (<["Control" := Some "Policy set"]>
  (<["Policy/Config Artifact" := Some "policies"]> ∅)).

Definition row_c : gmap string cell :=
  <["Layer #" := Some "2"]> (<["Control" := Some "Threat model"]>
  (<["Policy/Config Artifact" := Some "nonexistent/**/*.conf"]> ∅)).

Definition checklist_abc : list (gmap string cell) := [row_a; row_b; row_c].

Definition w_abc : World :=
  {| os_stat := λ p,
       if String.eqb p "security_layers_checklist.csv" then Stat RegularFile
       else if String.eqb p "policies" then Stat Directory
       else ENOENT;
     glob_glob := λ _, [];
     open_csv := λ p,
       if String.eqb p "security_layers_checklist.csv" then CsvRows checklist_abc
       else CsvNotFound;
     clock := λ n, n;
     subprocess_run := λ _, ProcNotFound;
     open_write := λ _, Written |}.

(** The checklist of [w_abc]; [cargo-audit] is not installed and
    [cargo deny check --format json] exits with status 0 and nothing on its
    standard output. *)
Definition w_deny_silent : World :=
  {| os_stat := os_stat w_abc;
     glob_glob := glob_glob w_abc;
     open_csv := open_csv w_abc;
     clock := λ n, n;
     subprocess_run := λ cmd,
       if String.eqb (nth 1 cmd "") "deny" then Completed 0 (NotJson "")
       else ProcNotFound;
     open_write := λ _, Written |}.

(** The checklist of [w_abc]; [cargo audit --json] exits with status 0
    after printing a line that is not JSON. *)
Definition w_audit_garbled : World :=
  {| os_stat := os_stat w_abc;
     glob_glob := glob_glob w_abc;
     open_csv := open_csv w_abc;
     clock := λ n, n;
     subprocess_run := λ cmd,
       if String.eqb (nth 1 cmd "") "audit"
       then Completed 0 (NotJson "Fetching advisory database")
       else ProcNotFound;
     open_write := λ _, Written |}.

Definition self_abc : SecurityDashboard.Self :=
  {| SecurityDashboard.checklist_file := "security_layers_checklist.csv";
     SecurityDashboard.checklist := checklist_abc |}.

Definition assessments_abc : list ComplianceReport.Assessment :=
  ComplianceReport.assess_control w_abc <$> checklist_abc.

(** [cargo audit --json] reports two advisories, one of them critical;
    [cargo deny] prints an empty JSON object. *)
Definition audit_two : json :=
  JObj [("vulnerabilities",
         JArr [JObj [("id", JStr "RUSTSEC-0001"); ("severity", JStr "critical")];
               JObj [("id", JStr "RUSTSEC-0002"); ("severity", JStr "low")]])].

Definition w_tools : World :=
  {| os_stat := os_stat w_abc;
     glob_glob := glob_glob w_abc;
     open_csv := open_csv w_abc;
     clock := λ n, n;
     subprocess_run := λ cmd,
       if String.eqb (nth 1 cmd "") "audit" then Completed 0 (Json audit_two)
       else Completed 0 (Json (JObj []));
     open_write := λ _, Written |}.

(** [cargo audit --json] prints the advisories as an object with three
    entries instead of a list. *)
Definition audit_object : json :=
  JObj [("vulnerabilities",
         JObj [("found", JBool false); ("count", JNum 0); ("list", JArr [])])].

Definition w_audit_object : World :=
  {| os_stat := os_stat w_abc;
     glob_glob := glob_glob w_abc;
     open_csv := open_csv w_abc;
     clock := λ n, n;
     subprocess_run := λ cmd,
       if String.eqb (nth 1 cmd "") "audit" then Completed 0 (Json audit_object)
       else ProcNotFound;
     open_write := λ _, Written |}.

(** A checklist whose second row has no cell in the column "Layer #". *)
Definition row_unlabelled : gmap string cell :=
  <["Control" := Some "Backup policy"]>
  (<["Policy/Config Artifact" := Some "policies"]> ∅).

Definition self_unlabelled : SecurityDashboard.Self :=
  {| SecurityDashboard.checklist_file := "security_layers_checklist.csv";
     SecurityDashboard.checklist := [row_b; row_unlabelled] |}.

End Examples.

(** ** Properties *)

(** *** Python run-time *)
Section PyFacts.

Lemma truthy_false (c : cell) : truthy c = false ↔ Spec.is_empty c.
Proof.
  unfold Spec.is_empty. destruct c as [s|]; simpl.
  - rewrite negb_false_iff, String.eqb_eq. split.
    + intros ->. by right.
    + intros [?|?]; congruence.
  - split; [by left | done].
Qed.

Lemma truthy_true (c : cell) : truthy c = true ↔ ¬ Spec.is_empty c.
Proof.
  rewrite <- truthy_false. destruct (truthy c); split; congruence.
Qed.

Lemma char_in_elem (c : ascii) (s : string) :
  char_in c s = true ↔ c ∈ list_ascii_of_string s.
Proof.
  induction s as [|d s IH]; simpl.
  - split; [done | by intros ?%elem_of_nil].
  - rewrite orb_true_iff, IH, Ascii.eqb_eq, elem_of_cons. done.
Qed.

Lemma wildcard_test (p : string) :
  char_in "*" p || char_in "?" p = true ↔ Spec.has_wildcard p.
Proof.
  unfold Spec.has_wildcard. by rewrite orb_true_iff, !char_in_elem.
Qed.

Lemma os_path_exists_stat (w : World) (p : string) :
  os_path_exists w p = true ↔ ∃ k, os_stat w p = Stat k.
Proof.
  unfold os_path_exists. destruct (os_stat w p); split; try done.
  - eauto.
  - by intros [? ?].
  - by intros [? ?].
Qed.

Lemma length_pos_elem {A} (l : list A) : Nat.ltb 0 (length l) = true ↔ ∃ x, x ∈ l.
Proof.
  destruct l as [|x l]; simpl.
  - split; [done | by intros [? ?%elem_of_nil]].
  - split; [|done]. intros _. exists x. by left.
Qed.

End PyFacts.

(** *** Control assessor and artifact resolver *)
Section Assessor.

Import ComplianceReport.

Lemma check_artifact_exists_empty (w : World) (c : cell) :
  truthy c = false → check_artifact_exists w c = false.
Proof.
  destruct c as [p|]; simpl; [|done].
  rewrite negb_false_iff. by intros ->.
Qed.

Lemma assess_control_pair (w : World) (row : ControlRecord) :
  let artifact_spec := dict_get row "Policy/Config Artifact" (Some "") in
  (status (assess_control w row), reason (assess_control w row))
  = Spec.assess artifact_spec (check_artifact_exists w artifact_spec).
Proof.
  unfold assess_control. simpl.
  destruct (dict_get row "Policy/Config Artifact" (Some "")) as [p|]; simpl; [|done].
  destruct (String.eqb_spec p "") as [->|Hp]; simpl; [done|].
  destruct p; [done|].
  match goal with |- context [if ?b then _ else _] => by destruct b end.
Qed.

Lemma assess_control_cases (w : World) (row : ControlRecord) :
  let artifact_spec := dict_get row "Policy/Config Artifact" (Some "") in
  let a := assess_control w row in
  (Spec.is_empty artifact_spec ∧ status a = "Not Applicable"
     ∧ reason a = "No artifact specified") ∨
  (¬ Spec.is_empty artifact_spec ∧ check_artifact_exists w artifact_spec = true
     ∧ status a = "Implemented" ∧ reason a = "Artifact found") ∨
  (¬ Spec.is_empty artifact_spec ∧ check_artifact_exists w artifact_spec = false
     ∧ status a = "Missing" ∧ reason a = "Artifact not found").
Proof.
  intros artifact_spec a. unfold a, assess_control. fold artifact_spec.
  destruct (truthy artifact_spec) eqn:Ht; simpl.
  - apply truthy_true in Ht.
    destruct (check_artifact_exists w artifact_spec); simpl; auto 10.
  - apply truthy_false in Ht. auto.
Qed.

Lemma assess_control_valid (w : World) (row : ControlRecord) :
  Spec.valid (assess_control w row).
Proof.
  unfold Spec.valid. rewrite !elem_of_cons.
  destruct (assess_control_cases w row) as [(_ & -> & _) | [(_ & _ & -> & _) | (_ & _ & -> & _)]];
    auto.
Qed.

(** The two branches of the dashboard's loops test the same conditions. *)
Lemma dashboard_branches (w : World) (row : ControlRecord) :
  let artifact := dict_get row "Policy/Config Artifact" (Some "") in
  let a := assess_control w row in
  truthy artifact && SecurityDashboard.check_artifact_exists w artifact
    = String.eqb (status a) "Implemented" ∧
  (if truthy artifact && SecurityDashboard.check_artifact_exists w artifact
   then false else truthy artifact)
    = String.eqb (status a) "Missing".
Proof.
  intros artifact a.
  change (SecurityDashboard.check_artifact_exists w artifact)
    with (check_artifact_exists w artifact).
  destruct (assess_control_cases w row) as [(He & Hs & _) | [(Hne & Hc & Hs & _) | (Hne & Hc & Hs & _)]];
    fold artifact a in He || fold artifact a in Hne, Hc; fold a in Hs; rewrite Hs.
  - apply truthy_false in He. by rewrite He.
  - apply truthy_true in Hne. by rewrite Hne, Hc.
  - apply truthy_true in Hne. by rewrite Hne, Hc.
Qed.

Lemma count_step_status (w : World) (row : ControlRecord) (i m : nat) :
  SecurityDashboard.count_step w (i, m) row
  = (i + (if String.eqb (status (assess_control w row)) "Implemented" then 1 else 0),
     m + (if String.eqb (status (assess_control w row)) "Missing" then 1 else 0)).
Proof.
  destruct (dashboard_branches w row) as [H1 H2]. cbv zeta in H1, H2.
  unfold SecurityDashboard.count_step.
  rewrite <- H1, <- H2.
  destruct (truthy _ && SecurityDashboard.check_artifact_exists w _).
  - by rewrite Nat.add_0_r.
  - destruct (truthy _); by rewrite ?Nat.add_0_r.
Qed.

(** C1. The status of the assessment derived from a checklist row is
    Not Applicable if and only if the artifact spec of the row is empty;
    otherwise it is Implemented exactly when the artifact resolver answers
    that the artifact exists, and Missing otherwise. The reason is
    "No artifact specified", "Artifact found" or "Artifact not found"
    respectively (as the source capitalises them). Status and reason are a
    function of the artifact spec and the resolver's answer alone
    ([Spec.assess]), every descriptive field is the cell of its column, and
    the dashboard's counting loop classifies the row in the same way. *)
Theorem assess_control_correct (w : World) (row : ControlRecord) :
  let artifact_spec := dict_get row "Policy/Config Artifact" (Some "") in
  let a := assess_control w row in
  (status a = "Not Applicable" ↔ Spec.is_empty artifact_spec) ∧
  (status a = "Implemented" ↔
     ¬ Spec.is_empty artifact_spec ∧ check_artifact_exists w artifact_spec = true) ∧
  (status a = "Missing" ↔
     ¬ Spec.is_empty artifact_spec ∧ check_artifact_exists w artifact_spec = false) ∧
  (reason a = "No artifact specified" ↔ status a = "Not Applicable") ∧
  (reason a = "Artifact found" ↔ status a = "Implemented") ∧
  (reason a = "Artifact not found" ↔ status a = "Missing") ∧
  (status a, reason a)
    = Spec.assess artifact_spec (check_artifact_exists w artifact_spec) ∧
  (layer_number a = dict_get row "Layer #" (Some "") ∧
   layer_name a = dict_get row "Layer Name" (Some "") ∧
   control_group a = dict_get row "Control Group" (Some "") ∧
   control a = dict_get row "Control" (Some "") ∧
   artifact a = artifact_spec ∧
   component a = dict_get row "Component (Rust/K8s/Web3)" (Some "") ∧
   test_category a = dict_get row "Test Category" (Some "") ∧
   metric_kpi a = dict_get row "Metric/KPI" (Some "") ∧
   evidence a = dict_get row "Evidence to Store" (Some "")) ∧
  (∀ i m, SecurityDashboard.count_step w (i, m) row
     = (i + (if String.eqb (status a) "Implemented" then 1 else 0),
        m + (if String.eqb (status a) "Missing" then 1 else 0))).
Proof.
  intros artifact_spec a.
  pose proof (assess_control_pair w row) as Hpair. simpl in Hpair.
  fold artifact_spec a in Hpair.
  assert (Hfields : artifact a = artifact_spec) by done.
  pose proof (assess_control_cases w row) as Hcases. cbv zeta in Hcases.
  fold artifact_spec a in Hcases.
  assert (Hdash : ∀ i m, SecurityDashboard.count_step w (i, m) row
     = (i + (if String.eqb (status a) "Implemented" then 1 else 0),
        m + (if String.eqb (status a) "Missing" then 1 else 0))).
  { intros i m. apply count_step_status. }
  repeat split; try done;
    destruct Hcases as [(He & Hs & Hr) | [(Hne & Hc & Hs & Hr) | (Hne & Hc & Hs & Hr)]];
    rewrite ?Hs, ?Hr; try done; try congruence; try tauto;
    intros [_ ?]; congruence.
Qed.

(** C4 (as amended). The resolver answers false for an unset or empty spec.
    It answers true exactly when the spec is a non-empty string that either
    contains one of the wildcard characters [*] and [?] and the recursive
    glob has at least one match, or contains neither and [os.stat] finds a
    file or a directory at that exact path. Both scripts define the same
    resolver. *)
Theorem check_artifact_exists_correct (w : World) (spec : cell) :
  check_artifact_exists w None = false ∧
  check_artifact_exists w (Some "") = false ∧
  (check_artifact_exists w spec = true ↔
     ∃ p, spec = Some p ∧ p ≠ "" ∧
       ((Spec.has_wildcard p ∧ ∃ m, m ∈ glob_glob w p) ∨
        (¬ Spec.has_wildcard p ∧ ∃ k, os_stat w p = Stat k))) ∧
  SecurityDashboard.check_artifact_exists w spec = check_artifact_exists w spec.
Proof.
  split; [done|]. split; [done|]. split; [|done].
  destruct spec as [p|]; simpl.
  - destruct (String.eqb_spec p "") as [->|Hp].
    + split; [done|]. by intros (p & [= <-] & ? & _).
    + destruct (char_in "*" p || char_in "?" p) eqn:Hw.
      * apply wildcard_test in Hw. rewrite length_pos_elem. split.
        -- intros Hm. exists p. auto.
        -- intros (q & [= <-] & _ & [[_ Hm] | [Hn _]]); [done | by destruct Hn].
      * assert (¬ Spec.has_wildcard p) as Hn.
        { rewrite <- wildcard_test. by rewrite Hw. }
        rewrite os_path_exists_stat. split.
        -- intros Hk. exists p. auto.
        -- intros (q & [= <-] & _ & [[Hy _] | [_ Hk]]); [by destruct Hn | done].
  - split; [done|]. by intros (p & ? & _).
Qed.

(** C4, counterexample. [docs/conf[ab].yaml] contains the glob
    metacharacter [[], the glob pattern matches the existing file
    [docs/confa.yaml], and the resolver answers false: without [*] or [?]
    the spec is looked up as an exact path. *)
Lemma bracket_pattern_not_globbed :
  Spec.has_magic "docs/conf[ab].yaml" ∧
  "docs/confa.yaml" ∈ glob_glob Examples.w_bracket "docs/conf[ab].yaml" ∧
  check_artifact_exists Examples.w_bracket (Some "docs/conf[ab].yaml") = false ∧
  ¬ (∀ (w : World) (p : string), p ≠ "" → Spec.has_magic p →
       (check_artifact_exists w (Some p) = true ↔ ∃ m, m ∈ glob_glob w p)).
Proof.
  assert (Hmagic : Spec.has_magic "docs/conf[ab].yaml").
  { right. right. rewrite <- char_in_elem. reflexivity. }
  assert (Hmatch : "docs/confa.yaml" ∈ glob_glob Examples.w_bracket "docs/conf[ab].yaml").
  { simpl. by left. }
  repeat split; try done.
  intros Hclaim.
  destruct (Hclaim Examples.w_bracket "docs/conf[ab].yaml") as [_ Hback]; [done..|].
  discriminate Hback. eauto.
Qed.

(** C8 (as amended). When [os.stat] on a non-empty artifact path without
    wildcards fails with an I/O error other than "not found", the resolver
    answers false and the control is assessed as Missing with the reason
    "Artifact not found", as for a path that does not exist; the status of
    an assessment is always one of the three strings. *)
Theorem io_error_assessed_missing (w : World) (row : ControlRecord) (p : string) :
  dict_get row "Policy/Config Artifact" (Some "") = Some p →
  p ≠ "" →
  ¬ Spec.has_wildcard p →
  os_stat w p = EACCES →
  check_artifact_exists w (Some p) = false ∧
  status (assess_control w row) = "Missing" ∧
  reason (assess_control w row) = "Artifact not found" ∧
  (∀ w' row', status (assess_control w' row')
     ∈ ["Implemented"; "Missing"; "Not Applicable"]).
Proof.
  intros Hrow Hp Hn Hstat.
  assert (Hc : check_artifact_exists w (Some p) = false).
  { simpl. destruct (String.eqb_spec p ""); [done|].
    destruct (char_in "*" p || char_in "?" p) eqn:Hw.
    - apply wildcard_test in Hw. by destruct Hn.
    - unfold os_path_exists. by rewrite Hstat. }
  assert (Ht : truthy (Some p) = true).
  { apply truthy_true. intros [?|?]; congruence. }
  split; [done|].
  unfold assess_control at 1 2. cbn [status reason].
  rewrite Hrow, Ht, Hc. cbn [negb fst snd].
  split; [done|]. split; [done|].
  intros w' row'.
  pose proof (f_equal fst (assess_control_pair w' row')) as Hs.
  cbv zeta in Hs. cbn [fst] in Hs. rewrite Hs.
  unfold Spec.assess. repeat case_match; cbn [fst]; set_solver.
Qed.

(** C8, instance: the vault policy in a directory that may not be searched. *)
Lemma io_error_assessed_missing_witness :
  dict_get Examples.row_vault "Policy/Config Artifact" (Some "")
    = Some "secrets/vault-policy.hcl" ∧
  os_stat Examples.w_denied "secrets/vault-policy.hcl" = EACCES ∧
  check_artifact_exists Examples.w_denied (Some "secrets/vault-policy.hcl") = false ∧
  status (assess_control Examples.w_denied Examples.row_vault) = "Missing" ∧
  reason (assess_control Examples.w_denied Examples.row_vault) = "Artifact not found".
Proof.
  split; [reflexivity|]. split; [reflexivity|].
  destruct (io_error_assessed_missing Examples.w_denied Examples.row_vault
              "secrets/vault-policy.hcl") as (Hc & Hs & Hr & _).
  - reflexivity.
  - discriminate.
  - rewrite <- wildcard_test. vm_compute. discriminate.
  - reflexivity.
  - split; [exact Hc|]. split; [exact Hs|exact Hr].
Defined.

(** C8, counterexample. [os.stat] fails with a permission error, the
    control is reported Missing, and the whole assessment equals the one
    made when the path does not exist at all. *)
Lemma permission_denied_reported_missing :
  os_stat Examples.w_denied "secrets/vault-policy.hcl" = EACCES ∧
  os_stat Examples.nothing "secrets/vault-policy.hcl" = ENOENT ∧
  artifact (assess_control Examples.w_denied Examples.row_vault)
    = Some "secrets/vault-policy.hcl" ∧
  status (assess_control Examples.w_denied Examples.row_vault) = "Missing" ∧
  assess_control Examples.w_denied Examples.row_vault
    = assess_control Examples.nothing Examples.row_vault.
Proof. repeat split; reflexivity. Qed.

End Assessor.

(** *** Rates *)
Section Rates.

Lemma report_rate_of (i a : nat) : ComplianceReport.rate_of i a = Ok (Spec.rate i a).
Proof. unfold ComplianceReport.rate_of, truediv. by destruct a. Qed.

Lemma dashboard_rate_of (i t : nat) : SecurityDashboard.rate_of i t = Ok (Spec.rate i t).
Proof. unfold SecurityDashboard.rate_of, truediv. by destruct t. Qed.

Lemma inject_nat_le (i a : nat) : (i ≤ a)%nat → (inject_nat i <= inject_nat a)%Q.
Proof. intros H. unfold inject_nat. rewrite <- Zle_Qle. lia. Qed.

Lemma inject_nat_pos (a : nat) : (0 < a)%nat → (0 < inject_nat a)%Q.
Proof.
  intros H. unfold inject_nat. change 0%Q with (inject_Z 0).
  rewrite <- Zlt_Qlt. lia.
Qed.

Lemma rate_bounds (i a : nat) : (i ≤ a)%nat → (0 <= Spec.rate i a <= 100)%Q.
Proof.
  intros Hle. unfold Spec.rate. destruct a as [|a]; [done|].
  pose proof (inject_nat_pos (S a) ltac:(lia)) as Hpos.
  pose proof (inject_nat_le 0 i ltac:(lia)) as H0.
  pose proof (inject_nat_le i (S a) Hle) as H1.
  change (inject_nat 0) with 0%Q in H0.
  assert (0 <= inject_nat i / inject_nat (S a) <= 1)%Q as [Hlo Hhi].
  { split.
    - apply Qle_shift_div_l; [done|]. by rewrite Qmult_0_l.
    - apply Qle_shift_div_r; [done|]. by rewrite Qmult_1_l. }
  split.
  - apply Qmult_le_0_compat; done.
  - apply Qle_trans with (1 * 100)%Q; [by apply Qmult_le_compat_r|].
    unfold Qle. simpl. lia.
Qed.

End Rates.

(** *** Finite maps of counters *)
Section Counters.

Context {V : Type}.
Implicit Types (m : gmap cell V) (field : V → nat).

Lemma sum_layers_empty field : Spec.sum_layers field (∅ : gmap cell V) = 0.
Proof. unfold Spec.sum_layers. by rewrite map_fold_empty. Qed.

Lemma sum_layers_insert field k v m :
  m !! k = None → Spec.sum_layers field (<[k := v]> m) = field v + Spec.sum_layers field m.
Proof.
  intros Hk. unfold Spec.sum_layers.
  rewrite map_fold_insert_L; [done | | done].
  intros. lia.
Qed.

Lemma sum_layers_lookup field k v m :
  m !! k = Some v → Spec.sum_layers field m = field v + Spec.sum_layers field (delete k m).
Proof.
  intros Hk. unfold Spec.sum_layers.
  rewrite (map_fold_delete_L _ _ k v m); [done | | done].
  intros. lia.
Qed.

Lemma sum_layers_alter field f k m d :
  (∀ v, field (f v) = field v + d) → is_Some (m !! k) →
  Spec.sum_layers field (alter f k m) = Spec.sum_layers field m + d.
Proof.
  intros Hf [v Hv].
  rewrite (sum_layers_lookup field k v m Hv).
  rewrite <- (insert_delete_id m k v Hv) at 1.
  rewrite alter_insert_eq, sum_layers_insert by apply lookup_delete_eq.
  rewrite Hf. lia.
Qed.

Lemma mapM_pure {A B} (f : A → result B) (g : A → B) (l : list A) :
  (∀ x, f x = Ok (g x)) → mapM f l = Ok (g <$> l).
Proof.
  intros Hf. induction l as [|x l IH]; [done|].
  cbn [mapM]. rewrite Hf, IH. done.
Qed.

End Counters.

(** *** Aggregator of the report script *)
Section Aggregator.

Import ComplianceReport.

Lemma count_status_with (s : string) (l : list Assessment) :
  count_status s l = Spec.with_status s l.
Proof.
  unfold count_status, Spec.with_status.
  generalize (List.filter (λ a, String.eqb (status a) s) l). intros l'.
  induction l' as [|a l' IH]; csimpl; [done|]. by rewrite IH.
Qed.

Lemma with_status_snoc (s : string) (l : list Assessment) (a : Assessment) :
  Spec.with_status s (l ++ [a])
  = Spec.with_status s l + (if String.eqb (status a) s then 1 else 0).
Proof.
  unfold Spec.with_status. rewrite List.filter_app, length_app. simpl.
  by destruct (String.eqb (status a) s).
Qed.

Lemma layer_size_snoc (k : cell) (l : list Assessment) (a : Assessment) :
  Spec.layer_size k (l ++ [a])
  = Spec.layer_size k l + (if bool_decide (layer_number a = k) then 1 else 0).
Proof.
  unfold Spec.layer_size. rewrite List.filter_app, length_app. simpl.
  by destruct (bool_decide (layer_number a = k)).
Qed.

Lemma in_layer_snoc (k : cell) (s : string) (l : list Assessment) (a : Assessment) :
  Spec.in_layer k s (l ++ [a])
  = Spec.in_layer k s l
    + (if bool_decide (layer_number a = k) && String.eqb (status a) s then 1 else 0).
Proof.
  unfold Spec.in_layer. rewrite List.filter_app, length_app. simpl.
  by destruct (bool_decide (layer_number a = k) && String.eqb (status a) s).
Qed.

Lemma in_layer_le (k : cell) (s : string) (l : list Assessment) :
  Spec.in_layer k s l ≤ Spec.layer_size k l.
Proof.
  unfold Spec.in_layer, Spec.layer_size.
  induction l as [|a l IH]; simpl; [done|].
  destruct (bool_decide (layer_number a = k)); simpl; [|done].
  destruct (String.eqb (status a) s); simpl; lia.
Qed.

Lemma layer_step_lookup (m : gmap cell LayerStats) (a : Assessment) (k : cell) :
  layer_step m a !! k
  = if decide (layer_number a = k)
    then Some (Spec.tally (status a) (default new_layer (m !! k)))
    else m !! k.
Proof.
  unfold layer_step, Spec.tally.
  destruct (m !! layer_number a) as [ls|] eqn:Hm;
    repeat (match goal with |- context [if String.eqb ?x ?y then _ else _] =>
              destruct (String.eqb x y) end);
    rewrite ?lookup_alter; case_decide; subst;
    rewrite ?lookup_insert_eq, ?lookup_insert_ne, ?Hm by done; done.
Qed.

Lemma tally_fields (s : string) (ls : LayerStats) :
  l_implemented (Spec.tally s ls)
    = l_implemented ls + (if String.eqb s "Implemented" then 1 else 0) ∧
  l_missing (Spec.tally s ls)
    = l_missing ls + (if String.eqb s "Missing" then 1 else 0) ∧
  l_not_applicable (Spec.tally s ls)
    = l_not_applicable ls + (if String.eqb s "Not Applicable" then 1 else 0).
Proof.
  unfold Spec.tally.
  destruct (String.eqb_spec s "Implemented") as [->|?]; [simpl; lia|].
  destruct (String.eqb_spec s "Missing") as [->|?]; [simpl; lia|].
  destruct (String.eqb_spec s "Not Applicable") as [->|?]; simpl; lia.
Qed.

Lemma layer_stats_eq (x y : LayerStats) :
  l_implemented x = l_implemented y → l_missing x = l_missing y →
  l_not_applicable x = l_not_applicable y → x = y.
Proof. destruct x, y; simpl; congruence. Qed.

Lemma layer_statistics_lookup (l : list Assessment) (k : cell) :
  fold_left layer_step l ∅ !! k
  = if decide (Spec.layer_size k l = 0) then None
    else Some {| l_implemented := Spec.in_layer k "Implemented" l;
                 l_missing := Spec.in_layer k "Missing" l;
                 l_not_applicable := Spec.in_layer k "Not Applicable" l |}.
Proof.
  induction l as [|a l IH] using rev_ind.
  { simpl. by rewrite lookup_empty. }
  rewrite fold_left_app. simpl. rewrite layer_step_lookup, IH.
  rewrite layer_size_snoc, !in_layer_snoc.
  destruct (decide (layer_number a = k)) as [Hk|Hk].
  - rewrite bool_decide_true by done. cbn [andb]. cbv iota.
    rewrite (decide_False (P := Spec.layer_size k l + 1 = 0)) by lia. f_equal.
    pose proof (in_layer_le k "Implemented" l).
    pose proof (in_layer_le k "Missing" l).
    pose proof (in_layer_le k "Not Applicable" l).
    destruct (tally_fields (status a)
                (default new_layer
                   (if decide (Spec.layer_size k l = 0) then None
                    else Some {| l_implemented := Spec.in_layer k "Implemented" l;
                                 l_missing := Spec.in_layer k "Missing" l;
                                 l_not_applicable := Spec.in_layer k "Not Applicable" l |})))
      as (Ht1 & Ht2 & Ht3).
    apply layer_stats_eq; cbn [l_implemented l_missing l_not_applicable];
      rewrite ?Ht1, ?Ht2, ?Ht3; case_decide; simpl; lia.
  - rewrite bool_decide_false by done. cbn [andb]. cbv iota.
    rewrite !Nat.add_0_r. done.
Qed.

Lemma layer_step_sums (m : gmap cell LayerStats) (a : Assessment) :
  Spec.sum_layers l_implemented (layer_step m a)
    = Spec.sum_layers l_implemented m
      + (if String.eqb (status a) "Implemented" then 1 else 0) ∧
  Spec.sum_layers l_missing (layer_step m a)
    = Spec.sum_layers l_missing m
      + (if String.eqb (status a) "Missing" then 1 else 0) ∧
  Spec.sum_layers l_not_applicable (layer_step m a)
    = Spec.sum_layers l_not_applicable m
      + (if String.eqb (status a) "Not Applicable" then 1 else 0).
Proof.
  unfold layer_step.
  set (k := layer_number a).
  set (m1 := match m !! k with
             | None => <[k := new_layer]> m
             | Some _ => m
             end).
  assert (Hsome : is_Some (m1 !! k)).
  { unfold m1. destruct (m !! k) eqn:Hm; [by rewrite Hm|].
    rewrite lookup_insert_eq. eauto. }
  assert (Hsum : ∀ field, field new_layer = 0 →
            Spec.sum_layers field m1 = Spec.sum_layers field m).
  { intros field Hf. unfold m1. destruct (m !! k) eqn:Hm; [done|].
    rewrite sum_layers_insert by done. by rewrite Hf. }
  rewrite <- (Hsum l_implemented), <- (Hsum l_missing), <- (Hsum l_not_applicable)
    by done.
  generalize (status a). intros s.
  destruct (String.eqb_spec s "Implemented") as [->|?]; cbn [String.eqb Ascii.eqb Bool.eqb].
  { repeat split; apply sum_layers_alter; done. }
  destruct (String.eqb_spec s "Missing") as [->|?]; cbn [String.eqb Ascii.eqb Bool.eqb].
  { repeat split; apply sum_layers_alter; done. }
  destruct (String.eqb_spec s "Not Applicable") as [->|?].
  { repeat split; apply sum_layers_alter; done. }
  by rewrite !Nat.add_0_r.
Qed.

Lemma layer_statistics_sums (l : list Assessment) :
  Spec.sum_layers l_implemented (fold_left layer_step l ∅)
    = Spec.with_status "Implemented" l ∧
  Spec.sum_layers l_missing (fold_left layer_step l ∅)
    = Spec.with_status "Missing" l ∧
  Spec.sum_layers l_not_applicable (fold_left layer_step l ∅)
    = Spec.with_status "Not Applicable" l.
Proof.
  induction l as [|a l (IH1 & IH2 & IH3)] using rev_ind.
  - simpl. by rewrite !sum_layers_empty.
  - rewrite fold_left_app. simpl.
    destruct (layer_step_sums (fold_left layer_step l ∅) a) as (-> & -> & ->).
    by rewrite !with_status_snoc, IH1, IH2, IH3.
Qed.

Lemma valid_cases (a : Assessment) :
  Spec.valid a ↔
  status a = "Implemented" ∨ status a = "Missing" ∨ status a = "Not Applicable".
Proof. unfold Spec.valid. rewrite !elem_of_cons, elem_of_nil. tauto. Qed.

Lemma valid_total (l : list Assessment) :
  Forall Spec.valid l →
  Spec.with_status "Implemented" l + Spec.with_status "Missing" l
    + Spec.with_status "Not Applicable" l = length l.
Proof.
  unfold Spec.with_status.
  induction 1 as [|a l Ha _ IH]; simpl; [done|].
  destruct (proj1 (valid_cases a) Ha) as [He | [He | He]]; rewrite He; simpl; lia.
Qed.

Lemma valid_layer_total (k : cell) (l : list Assessment) :
  Forall Spec.valid l →
  Spec.in_layer k "Implemented" l + Spec.in_layer k "Missing" l
    + Spec.in_layer k "Not Applicable" l = Spec.layer_size k l.
Proof.
  unfold Spec.in_layer, Spec.layer_size.
  induction 1 as [|a l Ha _ IH]; simpl; [done|].
  destruct (bool_decide (layer_number a = k)); simpl; [|done].
  destruct (proj1 (valid_cases a) Ha) as [He | [He | He]]; rewrite He; simpl; lia.
Qed.

Lemma generate_summary_run {E} (w : World) (l : list Assessment) (st : State E) :
  generate_summary w l st
  = (Ok {| generated_at := clock w (now_calls st);
           total_controls := length l;
           implemented := Spec.with_status "Implemented" l;
           missing := Spec.with_status "Missing" l;
           not_applicable := Spec.with_status "Not Applicable" l;
           applicable := Spec.with_status "Implemented" l + Spec.with_status "Missing" l;
           compliance_rate :=
             Spec.rate (Spec.with_status "Implemented" l)
               (Spec.with_status "Implemented" l + Spec.with_status "Missing" l);
           layer_statistics := fold_left layer_step l ∅ |},
     {| now_calls := S (now_calls st); trace := trace st |}).
Proof.
  unfold generate_summary. rewrite !count_status_with, report_rate_of. done.
Qed.

Lemma layer_line_of (item : cell * LayerStats) : layer_line item = Ok (Spec.line_of item).
Proof. destruct item as [k ls]. unfold layer_line. by rewrite report_rate_of. Qed.

Lemma generate_text_report_run (assessments : list Assessment) (s : Summary) :
  generate_text_report assessments s
  = Ok {| t_generated := generated_at s;
          t_total_controls := total_controls s;
          t_implemented := implemented s;
          t_missing := missing s;
          t_not_applicable := not_applicable s;
          t_compliance_rate := compliance_rate s;
          t_layers := Spec.line_of <$> map_to_list (layer_statistics s);
          t_missing_controls :=
            (λ c, {| mc_layer_number := layer_number c;
                     mc_control_group := control_group c;
                     mc_control := control c;
                     mc_artifact := artifact c |})
            <$> List.filter (λ a, String.eqb (status a) "Missing") assessments |}.
Proof.
  unfold generate_text_report.
  rewrite (mapM_pure layer_line Spec.line_of) by apply layer_line_of. done.
Qed.

(** The lines of the text report are the layers seen, with their counts. *)
Lemma text_report_lines (assessments : list Assessment) (line : LayerLine) :
  line ∈ Spec.line_of <$> map_to_list (fold_left layer_step assessments ∅) ↔
  Spec.layer_size (ll_layer_num line) assessments ≠ 0 ∧
  line = {| ll_layer_num := ll_layer_num line;
            ll_implemented := Spec.in_layer (ll_layer_num line) "Implemented" assessments;
            ll_applicable :=
              Spec.in_layer (ll_layer_num line) "Implemented" assessments
              + Spec.in_layer (ll_layer_num line) "Missing" assessments;
            ll_rate :=
              Spec.rate (Spec.in_layer (ll_layer_num line) "Implemented" assessments)
                (Spec.in_layer (ll_layer_num line) "Implemented" assessments
                 + Spec.in_layer (ll_layer_num line) "Missing" assessments) |}.
Proof.
  rewrite list_elem_of_fmap. split.
  - intros ([k ls] & -> & Hin). apply elem_of_map_to_list in Hin.
    rewrite layer_statistics_lookup in Hin. cbn [Spec.line_of ll_layer_num fst snd].
    case_decide; [done|]. injection Hin as <-. done.
  - intros [Hk Hline].
    eexists (ll_layer_num line, _). split; [|apply elem_of_map_to_list;
      rewrite layer_statistics_lookup, decide_False by done; reflexivity].
    exact Hline.
Qed.

(** C3. For every sequence of assessments (each with one of the three
    statuses) the summary satisfies
    implemented + missing + not_applicable = total_controls. A layer has an
    entry exactly when some assessment carries its key, and the three
    counters of the entry add up to the number of assessments with that
    key; each counter summed over all layers gives the global counter.
    Appending one assessment increments exactly one global counter and
    exactly one counter of the entry of its layer (taken as all zero when
    the key is new) and leaves every other layer as it was. *)
Theorem aggregation_counts {E} (w : World) (assessments : list Assessment) (st : State E) :
  Forall Spec.valid assessments →
  ∃ s st', generate_summary w assessments st = (Ok s, st') ∧
    implemented s + missing s + not_applicable s = total_controls s ∧
    total_controls s = length assessments ∧
    (∀ k, match layer_statistics s !! k with
          | Some ls =>
              0 < Spec.layer_size k assessments ∧
              l_implemented ls + l_missing ls + l_not_applicable ls
                = Spec.layer_size k assessments
          | None => Spec.layer_size k assessments = 0
          end) ∧
    Spec.sum_layers l_implemented (layer_statistics s) = implemented s ∧
    Spec.sum_layers l_missing (layer_statistics s) = missing s ∧
    Spec.sum_layers l_not_applicable (layer_statistics s) = not_applicable s ∧
    (∀ a, Spec.valid a →
       ∃ s1 st1, generate_summary w (assessments ++ [a]) st = (Ok s1, st1) ∧
         Spec.one_incremented
           (implemented s, missing s, not_applicable s)
           (implemented s1, missing s1, not_applicable s1) ∧
         (∃ after, layer_statistics s1 !! layer_number a = Some after ∧
            let before := default new_layer (layer_statistics s !! layer_number a) in
            Spec.one_incremented
              (l_implemented before, l_missing before, l_not_applicable before)
              (l_implemented after, l_missing after, l_not_applicable after)) ∧
         (∀ k, k ≠ layer_number a →
            layer_statistics s1 !! k = layer_statistics s !! k)).
Proof.
  intros Hvalid. rewrite generate_summary_run.
  eexists _, _. split; [reflexivity|].
  cbn [implemented missing not_applicable total_controls layer_statistics].
  split; [by apply valid_total|]. split; [done|].
  split.
  { intros k. rewrite layer_statistics_lookup.
    pose proof (valid_layer_total k assessments Hvalid) as Hk.
    case_decide; [done|].
    cbn [l_implemented l_missing l_not_applicable]. split; [lia|done]. }
  destruct (layer_statistics_sums assessments) as (-> & -> & ->).
  do 3 (split; [done|]).
  intros a Ha. rewrite generate_summary_run.
  eexists _, _. split; [reflexivity|].
  cbn [implemented missing not_applicable total_controls layer_statistics].
  rewrite fold_left_app. cbn [fold_left].
  split; [|split].
  - rewrite !with_status_snoc. unfold Spec.one_incremented.
    destruct (proj1 (valid_cases a) Ha) as [He | [He | He]]; rewrite He; simpl;
      rewrite ?Nat.add_0_r, ?Nat.add_1_r; auto.
  - rewrite layer_step_lookup, decide_True by done.
    eexists. split; [reflexivity|]. cbv zeta.
    destruct (tally_fields (status a)
                (default new_layer
                   (fold_left layer_step assessments ∅ !! layer_number a)))
      as (-> & -> & ->).
    unfold Spec.one_incremented.
    destruct (proj1 (valid_cases a) Ha) as [He | [He | He]]; rewrite He; simpl;
      rewrite ?Nat.add_0_r, ?Nat.add_1_r; auto.
  - intros k Hk. rewrite layer_step_lookup, decide_False by done. done.
Qed.

(** C3, instance: the three controls of the end-to-end scenario. *)
Lemma aggregation_counts_witness :
  Forall Spec.valid Examples.assessments_abc ∧
  ∃ s st', generate_summary (E := Event) Examples.w_abc Examples.assessments_abc init
             = (Ok s, st') ∧
    implemented s + missing s + not_applicable s = total_controls s.
Proof.
  assert (Hvalid : Forall Spec.valid Examples.assessments_abc).
  { repeat constructor; apply valid_cases; vm_compute; auto. }
  split; [exact Hvalid|].
  destruct (aggregation_counts (E := Event) Examples.w_abc Examples.assessments_abc
              init Hvalid) as (s & st' & Hrun & Hsum & _).
  exists s, st'. by split.
Defined.

End Aggregator.

(** *** Aggregator of the dashboard script *)
Section DashboardAggregator.

Import SecurityDashboard.

Abbreviation status_of w row :=
  (ComplianceReport.status (ComplianceReport.assess_control w row)).

Lemma count_fold (w : World) (rows : list ControlRecord) (i m : nat) :
  fold_left (count_step w) rows (i, m)
  = (i + Spec.with_status "Implemented" (ComplianceReport.assess_control w <$> rows),
     m + Spec.with_status "Missing" (ComplianceReport.assess_control w <$> rows)).
Proof.
  revert i m. induction rows as [|row rows IH]; intros i m.
  - simpl. by rewrite !Nat.add_0_r.
  - cbn [fold_left]. rewrite count_step_status, IH.
    unfold Spec.with_status. rewrite fmap_cons. cbn [List.filter].
    do 2 (match goal with |- context [if ?b then 1 else 0] => destruct b end);
      simpl; f_equal; lia.
Qed.

Lemma with_status_le (s : string) (l : list ComplianceReport.Assessment) :
  Spec.with_status s l ≤ length l.
Proof. unfold Spec.with_status. apply List.filter_length_le. Qed.

Lemma dashboard_tally_fields (s : string) (lm : LayerMetrics) :
  l_total (Spec.dashboard_tally s lm) = l_total lm + 1 ∧
  l_implemented (Spec.dashboard_tally s lm)
    = l_implemented lm + (if String.eqb s "Implemented" then 1 else 0) ∧
  l_missing (Spec.dashboard_tally s lm)
    = l_missing lm + (if String.eqb s "Missing" then 1 else 0).
Proof.
  unfold Spec.dashboard_tally.
  destruct (String.eqb_spec s "Implemented") as [->|?]; [simpl; lia|].
  destruct (String.eqb_spec s "Missing") as [->|?]; simpl; lia.
Qed.

Lemma layer_metrics_eq (x y : LayerMetrics) :
  l_total x = l_total y → l_implemented x = l_implemented y →
  l_missing x = l_missing y → x = y.
Proof. destruct x, y; simpl; congruence. Qed.

Lemma dashboard_layer_step_lookup (w : World) (m : gmap cell LayerMetrics)
  (row : ControlRecord) (k : cell) :
  layer_step w m row !! k
  = if decide (Spec.dashboard_key row = k)
    then Some (Spec.dashboard_tally (status_of w row) (default new_layer (m !! k)))
    else m !! k.
Proof.
  destruct (dashboard_branches w row) as [H1 H2]. cbv zeta in H1, H2.
  unfold layer_step, Spec.dashboard_tally. fold (Spec.dashboard_key row).
  rewrite H1 in H2. rewrite H1. clear H1.
  destruct (String.eqb (status_of w row) "Implemented") eqn:He;
    rewrite ?He in H2; cbv iota in H2; rewrite ?H2;
    [|destruct (String.eqb (status_of w row) "Missing")];
    destruct (m !! Spec.dashboard_key row) as [lm|] eqn:Hm;
    rewrite !lookup_alter; repeat case_decide; subst;
    rewrite ?lookup_insert_eq, ?lookup_insert_ne, ?Hm by done; done.
Qed.

Lemma rows_of_snoc (k : cell) (rows : list ControlRecord) (row : ControlRecord) :
  Spec.rows_of k (rows ++ [row])
  = Spec.rows_of k rows + (if bool_decide (Spec.dashboard_key row = k) then 1 else 0).
Proof.
  unfold Spec.rows_of. rewrite List.filter_app, length_app. simpl.
  by destruct (bool_decide (Spec.dashboard_key row = k)).
Qed.

Lemma rows_of_with_snoc (w : World) (k : cell) (s : string)
  (rows : list ControlRecord) (row : ControlRecord) :
  Spec.rows_of_with w k s (rows ++ [row])
  = Spec.rows_of_with w k s rows
    + (if bool_decide (Spec.dashboard_key row = k) && String.eqb (status_of w row) s
       then 1 else 0).
Proof.
  unfold Spec.rows_of_with. rewrite List.filter_app, length_app. cbn [List.filter].
  by destruct (bool_decide (Spec.dashboard_key row = k) && String.eqb (status_of w row) s).
Qed.

Lemma rows_of_with_le (w : World) (k : cell) (s : string) (rows : list ControlRecord) :
  Spec.rows_of_with w k s rows ≤ Spec.rows_of k rows.
Proof.
  unfold Spec.rows_of_with, Spec.rows_of.
  induction rows as [|row rows IH]; [done|]. cbn [List.filter].
  destruct (bool_decide (Spec.dashboard_key row = k)); cbn [andb]; [|done].
  destruct (String.eqb (status_of w row) s); cbn [length]; lia.
Qed.

Lemma layer_metrics_lookup (w : World) (rows : list ControlRecord) (k : cell) :
  fold_left (layer_step w) rows ∅ !! k
  = if decide (Spec.rows_of k rows = 0) then None
    else Some {| l_total := Spec.rows_of k rows;
                 l_implemented := Spec.rows_of_with w k "Implemented" rows;
                 l_missing := Spec.rows_of_with w k "Missing" rows |}.
Proof.
  induction rows as [|row rows IH] using rev_ind.
  { simpl. by rewrite lookup_empty. }
  rewrite fold_left_app. simpl. rewrite dashboard_layer_step_lookup, IH.
  rewrite rows_of_snoc, !rows_of_with_snoc.
  destruct (decide (Spec.dashboard_key row = k)) as [Hk|Hk].
  - rewrite bool_decide_true by done. cbn [andb]. cbv iota.
    rewrite (decide_False (P := Spec.rows_of k rows + 1 = 0)) by lia. f_equal.
    pose proof (rows_of_with_le w k "Implemented" rows).
    pose proof (rows_of_with_le w k "Missing" rows).
    destruct (dashboard_tally_fields (status_of w row)
                (default new_layer
                   (if decide (Spec.rows_of k rows = 0) then None
                    else Some {| l_total := Spec.rows_of k rows;
                                 l_implemented := Spec.rows_of_with w k "Implemented" rows;
                                 l_missing := Spec.rows_of_with w k "Missing" rows |})))
      as (Ht1 & Ht2 & Ht3).
    apply layer_metrics_eq; cbn [l_total l_implemented l_missing];
      rewrite ?Ht1, ?Ht2, ?Ht3; case_decide; simpl; lia.
  - rewrite bool_decide_false by done. cbn [andb]. cbv iota.
    rewrite !Nat.add_0_r. done.
Qed.

Lemma calculate_compliance_metrics_run (w : World) (self : Self) :
  let assessments := ComplianceReport.assess_control w <$> checklist self in
  calculate_compliance_metrics w self
  = Ok {| total_controls := length (checklist self);
          implemented_controls := Spec.with_status "Implemented" assessments;
          missing_controls := Spec.with_status "Missing" assessments;
          compliance_rate :=
            Spec.rate (Spec.with_status "Implemented" assessments)
              (length (checklist self));
          layer_metrics := fold_left (layer_step w) (checklist self) ∅ |}.
Proof.
  intros assessments. unfold calculate_compliance_metrics.
  rewrite count_fold. cbn [Nat.add]. rewrite dashboard_rate_of. done.
Qed.

Lemma layer_row_of (item : cell * LayerMetrics) : layer_row item = Ok (Spec.row_of item).
Proof. destruct item as [k lm]. unfold layer_row. by rewrite dashboard_rate_of. Qed.

Lemma generate_html_report_run (w : World) (am : AuditMetrics) (m : ComplianceMetrics)
  (st : State Event) :
  generate_html_report w am m st
  = (Ok {| h_generated := clock w (now_calls st);
           h_compliance_rate := compliance_rate m;
           h_implemented_controls := implemented_controls m;
           h_total_controls := total_controls m;
           h_vulnerabilities_count := default (PStr "N/A") (vulnerabilities am !! "count");
           h_vulnerabilities_critical := default (PInt 0) (vulnerabilities am !! "critical");
           h_missing_controls := missing_controls m;
           h_rows := Spec.row_of <$> map_to_list (layer_metrics m);
           h_tail := html_tail |},
     {| now_calls := S (now_calls st); trace := trace st |}).
Proof.
  unfold generate_html_report.
  unfold mbind, M_bind, datetime_now, lift.
  rewrite (mapM_pure layer_row Spec.row_of) by apply layer_row_of. done.
Qed.

(** The rows of the HTML table are the layers seen, with their counts. *)
Lemma html_rows (w : World) (rows : list ControlRecord) (r : LayerRow) :
  r ∈ Spec.row_of <$> map_to_list (fold_left (layer_step w) rows ∅) ↔
  Spec.rows_of (r_layer_num r) rows ≠ 0 ∧
  r = Spec.row_of (r_layer_num r,
        {| l_total := Spec.rows_of (r_layer_num r) rows;
           l_implemented := Spec.rows_of_with w (r_layer_num r) "Implemented" rows;
           l_missing := Spec.rows_of_with w (r_layer_num r) "Missing" rows |}).
Proof.
  rewrite list_elem_of_fmap. split.
  - intros ([k lm] & -> & Hin). apply elem_of_map_to_list in Hin.
    rewrite layer_metrics_lookup in Hin. cbn [Spec.row_of r_layer_num fst snd].
    case_decide; [done|]. injection Hin as <-. done.
  - intros [Hk Hrow].
    eexists (r_layer_num r, _). split; [|apply elem_of_map_to_list;
      rewrite layer_metrics_lookup, decide_False by done; reflexivity].
    exact Hrow.
Qed.

End DashboardAggregator.

(** *** Compliance rates of the two scripts *)
Section ComplianceRates.

Import ComplianceReport.

(** C2 (as amended). Neither script raises while computing rates. In the
    report script the global rate of [generate_summary] and the rate of
    every layer line of [generate_text_report] equal
    implemented / applicable * 100 with applicable = implemented + missing
    (controls without artifact are not in the denominator), and 0 when
    applicable = 0. In the dashboard script the global rate of
    [calculate_compliance_metrics] and the rate of every row of the HTML
    table equal implemented / total * 100, where total counts all controls
    (of the checklist, or of the layer), those without artifact included,
    and 0 when total = 0. *)
Theorem compliance_rates {E} (w : World) (assessments : list Assessment) (st : State E)
  (self : SecurityDashboard.Self) (am : SecurityDashboard.AuditMetrics)
  (dst : State SecurityDashboard.Event) :
  (∀ i, Spec.rate i 0 = 0%Q) ∧
  (∃ s st' tr,
     generate_summary w assessments st = (Ok s, st') ∧
     generate_text_report assessments s = Ok tr ∧
     implemented s = Spec.with_status "Implemented" assessments ∧
     missing s = Spec.with_status "Missing" assessments ∧
     applicable s = implemented s + missing s ∧
     compliance_rate s = Spec.rate (implemented s) (applicable s) ∧
     t_compliance_rate tr = compliance_rate s ∧
     (∀ k, Spec.layer_size k assessments ≠ 0 →
        ∃ line, line ∈ t_layers tr ∧ ll_layer_num line = k) ∧
     (∀ line, line ∈ t_layers tr →
        ll_implemented line
          = Spec.in_layer (ll_layer_num line) "Implemented" assessments ∧
        ll_applicable line
          = ll_implemented line + Spec.in_layer (ll_layer_num line) "Missing" assessments ∧
        ll_rate line = Spec.rate (ll_implemented line) (ll_applicable line))) ∧
  (∃ m h dst',
     SecurityDashboard.calculate_compliance_metrics w self = Ok m ∧
     SecurityDashboard.generate_html_report w am m dst = (Ok h, dst') ∧
     let rows := SecurityDashboard.checklist self in
     SecurityDashboard.total_controls m = length rows ∧
     SecurityDashboard.implemented_controls m
       = Spec.with_status "Implemented" (assess_control w <$> rows) ∧
     SecurityDashboard.missing_controls m
       = Spec.with_status "Missing" (assess_control w <$> rows) ∧
     SecurityDashboard.compliance_rate m
       = Spec.rate (SecurityDashboard.implemented_controls m)
           (SecurityDashboard.total_controls m) ∧
     SecurityDashboard.h_compliance_rate h = SecurityDashboard.compliance_rate m ∧
     (∀ k, Spec.rows_of k rows ≠ 0 →
        ∃ r, r ∈ SecurityDashboard.h_rows h ∧ SecurityDashboard.r_layer_num r = k) ∧
     (∀ r, r ∈ SecurityDashboard.h_rows h →
        SecurityDashboard.r_implemented r
          = Spec.rows_of_with w (SecurityDashboard.r_layer_num r) "Implemented" rows ∧
        SecurityDashboard.r_total r
          = Spec.rows_of (SecurityDashboard.r_layer_num r) rows ∧
        SecurityDashboard.r_rate r
          = Spec.rate (SecurityDashboard.r_implemented r) (SecurityDashboard.r_total r))).
Proof.
  split; [done|]. split.
  - rewrite generate_summary_run. eexists _, _, _. split; [reflexivity|].
    rewrite generate_text_report_run. split; [reflexivity|].
    cbn [implemented missing applicable compliance_rate layer_statistics
         t_compliance_rate t_layers].
    do 5 (split; [done|]). split.
    + intros k Hk.
      exists (Spec.line_of
                (k, {| l_implemented := Spec.in_layer k "Implemented" assessments;
                       l_missing := Spec.in_layer k "Missing" assessments;
                       l_not_applicable := Spec.in_layer k "Not Applicable" assessments |})).
      split; [|done]. by apply text_report_lines.
    + intros line Hline. apply text_report_lines in Hline as [_ ->].
      cbn [ll_layer_num ll_implemented ll_applicable ll_rate]. done.
  - rewrite calculate_compliance_metrics_run. eexists _, _, _. split; [reflexivity|].
    rewrite generate_html_report_run. split; [reflexivity|].
    cbn [SecurityDashboard.total_controls SecurityDashboard.implemented_controls
         SecurityDashboard.missing_controls SecurityDashboard.compliance_rate
         SecurityDashboard.layer_metrics SecurityDashboard.h_compliance_rate
         SecurityDashboard.h_rows].
    do 5 (split; [done|]). split.
    + intros k Hk.
      exists (Spec.row_of
                (k, {| SecurityDashboard.l_total :=
                         Spec.rows_of k (SecurityDashboard.checklist self);
                       SecurityDashboard.l_implemented :=
                         Spec.rows_of_with w k "Implemented"
                           (SecurityDashboard.checklist self);
                       SecurityDashboard.l_missing :=
                         Spec.rows_of_with w k "Missing"
                           (SecurityDashboard.checklist self) |})).
      split; [|done]. by apply html_rows.
    + intros r Hr. apply html_rows in Hr as [_ ->].
      cbn [Spec.row_of SecurityDashboard.r_layer_num SecurityDashboard.r_implemented
           SecurityDashboard.r_total SecurityDashboard.r_rate fst snd
           SecurityDashboard.l_implemented SecurityDashboard.l_total]. done.
Qed.

(** C10. Every rate the two scripts compute lies between 0 and 100: the
    global rate and the rate of each layer line of the report script, the
    global rate and the rate of each table row of the dashboard script; in
    each case the implemented count is at most the denominator. *)
Theorem compliance_rates_bounded {E} (w : World) (assessments : list Assessment)
  (st : State E) (self : SecurityDashboard.Self) (am : SecurityDashboard.AuditMetrics)
  (dst : State SecurityDashboard.Event) :
  (∃ s st' tr,
     generate_summary w assessments st = (Ok s, st') ∧
     generate_text_report assessments s = Ok tr ∧
     implemented s ≤ applicable s ∧
     (0 <= compliance_rate s <= 100)%Q ∧
     (∀ line, line ∈ t_layers tr →
        ll_implemented line ≤ ll_applicable line ∧
        (0 <= ll_rate line <= 100)%Q)) ∧
  (∃ m h dst',
     SecurityDashboard.calculate_compliance_metrics w self = Ok m ∧
     SecurityDashboard.generate_html_report w am m dst = (Ok h, dst') ∧
     SecurityDashboard.implemented_controls m ≤ SecurityDashboard.total_controls m ∧
     (0 <= SecurityDashboard.compliance_rate m <= 100)%Q ∧
     (∀ r, r ∈ SecurityDashboard.h_rows h →
        SecurityDashboard.r_implemented r ≤ SecurityDashboard.r_total r ∧
        (0 <= SecurityDashboard.r_rate r <= 100)%Q)).
Proof.
  split.
  - rewrite generate_summary_run. eexists _, _, _. split; [reflexivity|].
    rewrite generate_text_report_run. split; [reflexivity|].
    cbn [implemented applicable compliance_rate layer_statistics t_layers].
    split; [lia|]. split; [apply rate_bounds; lia|].
    intros line Hline. apply text_report_lines in Hline as [_ ->].
    cbn [ll_implemented ll_applicable ll_rate]. split; [lia|apply rate_bounds; lia].
  - rewrite calculate_compliance_metrics_run. eexists _, _, _. split; [reflexivity|].
    rewrite generate_html_report_run. split; [reflexivity|].
    cbn [SecurityDashboard.total_controls SecurityDashboard.implemented_controls
         SecurityDashboard.compliance_rate SecurityDashboard.layer_metrics
         SecurityDashboard.h_rows].
    pose proof (with_status_le "Implemented"
                  (assess_control w <$> SecurityDashboard.checklist self)) as Hle.
    rewrite length_fmap in Hle.
    split; [done|]. split; [by apply rate_bounds|].
    intros r Hr. apply html_rows in Hr as [_ ->].
    cbn [Spec.row_of SecurityDashboard.r_implemented SecurityDashboard.r_total
         SecurityDashboard.r_rate fst snd
         SecurityDashboard.l_implemented SecurityDashboard.l_total].
    pose proof (rows_of_with_le w (SecurityDashboard.r_layer_num r) "Implemented"
                  (SecurityDashboard.checklist self)).
    split; [done|by apply rate_bounds].
Qed.

(** C2, counterexample. On the three-control checklist the dashboard
    counts 1 implemented, 1 missing and 3 controls in total, and reports
    the rate 100/3 (one third), not implemented / (implemented + missing)
    * 100 = 50: the control without artifact is in its denominator. *)
Lemma dashboard_rate_counts_not_applicable :
  ∃ m,
    SecurityDashboard.calculate_compliance_metrics Examples.w_abc Examples.self_abc
      = Ok m ∧
    SecurityDashboard.implemented_controls m = 1 ∧
    SecurityDashboard.missing_controls m = 1 ∧
    SecurityDashboard.total_controls m = 3 ∧
    (SecurityDashboard.compliance_rate m == 100 # 3)%Q ∧
    (Spec.rate 1 (1 + 1) == 50)%Q ∧
    ¬ (SecurityDashboard.compliance_rate m
       == Spec.rate (SecurityDashboard.implemented_controls m)
            (SecurityDashboard.implemented_controls m
             + SecurityDashboard.missing_controls m))%Q.
Proof.
  rewrite calculate_compliance_metrics_run. eexists. split; [reflexivity|].
  cbn [SecurityDashboard.total_controls SecurityDashboard.implemented_controls
       SecurityDashboard.missing_controls SecurityDashboard.compliance_rate
       SecurityDashboard.checklist].
  change (SecurityDashboard.checklist Examples.self_abc) with Examples.checklist_abc.
  assert (Hi : Spec.with_status "Implemented"
                 (assess_control Examples.w_abc <$> Examples.checklist_abc) = 1)
    by (vm_compute; reflexivity).
  assert (Hm : Spec.with_status "Missing"
                 (assess_control Examples.w_abc <$> Examples.checklist_abc) = 1)
    by (vm_compute; reflexivity).
  rewrite Hi, Hm. repeat split; try reflexivity.
  intros H. vm_compute in H. discriminate H.
Qed.

(** The end-to-end scenario of the specification: three controls, one
    without artifact, one with an existing directory, one with a glob that
    matches nothing. *)
Example end_to_end_scenario :
  ∃ s st',
    generate_summary (E := Event) Examples.w_abc Examples.assessments_abc init
      = (Ok s, st') ∧
    status <$> Examples.assessments_abc = ["Not Applicable"; "Implemented"; "Missing"] ∧
    total_controls s = 3 ∧ implemented s = 1 ∧ missing s = 1 ∧
    not_applicable s = 1 ∧ applicable s = 2 ∧ (compliance_rate s == 50)%Q.
Proof.
  rewrite generate_summary_run. eexists _, _. split; [reflexivity|].
  cbn [total_controls implemented missing not_applicable applicable compliance_rate].
  split; [by vm_compute|].
  assert (Hi : Spec.with_status "Implemented" Examples.assessments_abc = 1)
    by (vm_compute; reflexivity).
  assert (Hm : Spec.with_status "Missing" Examples.assessments_abc = 1)
    by (vm_compute; reflexivity).
  assert (Hn : Spec.with_status "Not Applicable" Examples.assessments_abc = 1)
    by (vm_compute; reflexivity).
  rewrite Hi, Hm, Hn. repeat split; reflexivity.
Qed.

(** Seven implemented, two missing: 700/9, about 77.78 percent. *)
Example rate_seven_of_nine : (Spec.rate 7 (7 + 2) == 700 # 9)%Q.
Proof. reflexivity. Qed.

End ComplianceRates.

(** *** Runs of the two scripts *)
Section Runs.

Lemma report_main_missing (w : World) (st : State ComplianceReport.Event) :
  os_path_exists w "security_layers_checklist.csv" = false →
  ComplianceReport.main w st
  = (Raise (SystemExit 1),
     {| now_calls := now_calls st;
        trace := trace st ++
          [ComplianceReport.Print
             "Error: Checklist file 'security_layers_checklist.csv' not found."] |}).
Proof. intros H. unfold ComplianceReport.main. rewrite H. done. Qed.

Lemma report_load_failure (w : World) (filename : string)
  (st : State ComplianceReport.Event) :
  (∀ rows, open_csv w filename ≠ CsvRows rows) →
  ∃ msg, ComplianceReport.load_checklist w filename st
         = (Raise (SystemExit 1),
            {| now_calls := now_calls st;
               trace := trace st ++ [ComplianceReport.Print msg] |}).
Proof.
  intros H. unfold ComplianceReport.load_checklist.
  destruct (open_csv w filename) as [rows| |msg]; [by destruct (H rows)|..];
    eexists; reflexivity.
Qed.

Lemma report_main_unreadable (w : World) (st : State ComplianceReport.Event) :
  (∀ rows, open_csv w "security_layers_checklist.csv" ≠ CsvRows rows) →
  ∃ msg, ComplianceReport.main w st
         = (Raise (SystemExit 1),
            {| now_calls := now_calls st;
               trace := trace st ++ [ComplianceReport.Print msg] |}).
Proof.
  intros H. unfold ComplianceReport.main.
  destruct (os_path_exists w _); cbn [negb].
  - destruct (report_load_failure w _ st H) as [msg Hmsg].
    exists msg. unfold mbind, M_bind. by rewrite Hmsg.
  - eexists. reflexivity.
Qed.

Lemma write_file_written {E} (w : World) (name : string) (written truncated : E) :
  open_write w name = Written → write_file w name written truncated = emit written.
Proof. intros H. unfold write_file. by rewrite H. Qed.

Lemma report_main_run (w : World) (rows : list ComplianceReport.ControlRecord)
  (st : State ComplianceReport.Event) :
  os_path_exists w "security_layers_checklist.csv" = true →
  open_csv w "security_layers_checklist.csv" = CsvRows rows →
  open_write w "security-compliance-report.txt" = Written →
  open_write w "security-compliance-report.json" = Written →
  ∃ s tr,
    ComplianceReport.generate_summary w (ComplianceReport.assess_control w <$> rows) st
      = (Ok s, {| now_calls := S (now_calls st); trace := trace st |}) ∧
    ComplianceReport.generate_text_report (ComplianceReport.assess_control w <$> rows) s
      = Ok tr ∧
    ComplianceReport.main w st
      = (Ok tt,
         {| now_calls := S (now_calls st);
            trace := trace st ++
              [ComplianceReport.WriteFile "security-compliance-report.txt"
                 (ComplianceReport.TextContent tr);
               ComplianceReport.WriteFile "security-compliance-report.json"
                 (ComplianceReport.JsonContent
                    {| ComplianceReport.j_summary := s;
                       ComplianceReport.j_assessments :=
                         ComplianceReport.assess_control w <$> rows |});
               ComplianceReport.PrintReport tr;
               ComplianceReport.Print (String "010"%char "Reports saved:");
               ComplianceReport.Print "- security-compliance-report.txt";
               ComplianceReport.Print "- security-compliance-report.json"] |}).
Proof.
  intros Hexists Hopen Htxt Hjson. eexists _, _.
  split; [apply generate_summary_run|]. split; [apply generate_text_report_run|].
  unfold ComplianceReport.main, ComplianceReport.load_checklist.
  rewrite Hexists, Hopen. cbn [negb].
  unfold mbind, M_bind, mret, M_ret. rewrite generate_summary_run.
  unfold lift. rewrite generate_text_report_run.
  rewrite !write_file_written by done.
  unfold emit. cbn [now_calls trace]. rewrite <- !app_assoc. done.
Qed.

Lemma dashboard_main_unreadable (w : World) (st : State SecurityDashboard.Event) :
  (∀ rows, open_csv w "security_layers_checklist.csv" ≠ CsvRows rows) →
  ∃ msg, SecurityDashboard.main w st
         = (Raise (SystemExit 1),
            {| now_calls := now_calls st;
               trace := trace st ++ [SecurityDashboard.Print msg] |}).
Proof.
  intros H. unfold SecurityDashboard.main, SecurityDashboard.new,
    SecurityDashboard.load_checklist.
  destruct (open_csv w _) as [rows| |msg]; [by destruct (H rows)|..];
    eexists; reflexivity.
Qed.

Lemma audit_block_unavailable (w : World) (group : gmap string SecurityDashboard.pyval) :
  subprocess_run w ["cargo"; "audit"; "--json"] ∈ [ProcNotFound; ProcTimeout; ProcError] →
  SecurityDashboard.audit_block w group
  = Ok (<["error" := SecurityDashboard.PStr "Cargo audit not available"]> group).
Proof.
  rewrite !elem_of_cons, elem_of_nil.
  unfold SecurityDashboard.audit_block, SecurityDashboard.run.
  intros [H | [H | [H | []]]]; rewrite H; reflexivity.
Qed.

Lemma deny_block_unavailable (w : World) (group : gmap string SecurityDashboard.pyval) :
  subprocess_run w ["cargo"; "deny"; "check"; "--format"; "json"]
    ∈ [ProcNotFound; ProcTimeout; ProcError] →
  SecurityDashboard.deny_block w group
  = Ok (<["error" := SecurityDashboard.PStr "Cargo deny not available"]> group).
Proof.
  rewrite !elem_of_cons, elem_of_nil.
  unfold SecurityDashboard.deny_block, SecurityDashboard.run.
  intros [H | [H | [H | []]]]; rewrite H; reflexivity.
Qed.

Lemma audit_block_failed (w : World) (group : gmap string SecurityDashboard.pyval)
  (returncode : Z) (stdout : output_text) :
  subprocess_run w ["cargo"; "audit"; "--json"] = Completed returncode stdout →
  returncode ≠ 0%Z →
  SecurityDashboard.audit_block w group
  = Ok (<["error" := SecurityDashboard.PStr "Cargo audit failed"]> group).
Proof.
  intros H Hrc. unfold SecurityDashboard.audit_block, SecurityDashboard.run.
  rewrite H. cbn. destruct (Z.eqb_spec returncode 0); done.
Qed.

Lemma deny_block_failed (w : World) (group : gmap string SecurityDashboard.pyval)
  (returncode : Z) (stdout : output_text) :
  subprocess_run w ["cargo"; "deny"; "check"; "--format"; "json"]
    = Completed returncode stdout →
  returncode ≠ 0%Z →
  SecurityDashboard.deny_block w group
  = Ok (<["error" := SecurityDashboard.PStr "Cargo deny failed"]> group).
Proof.
  intros H Hrc. unfold SecurityDashboard.deny_block, SecurityDashboard.run.
  rewrite H. cbn. destruct (Z.eqb_spec returncode 0); done.
Qed.

(** Output that [json.loads] rejects is not among the caught exceptions. *)
Lemma audit_block_unparseable (w : World) (group : gmap string SecurityDashboard.pyval)
  (raw : string) :
  subprocess_run w ["cargo"; "audit"; "--json"] = Completed 0 (NotJson raw) →
  SecurityDashboard.audit_block w group = Raise JSONDecodeError.
Proof.
  intros H. unfold SecurityDashboard.audit_block, SecurityDashboard.run.
  rewrite H. reflexivity.
Qed.

Lemma deny_block_unparseable (w : World) (group : gmap string SecurityDashboard.pyval)
  (raw : string) :
  subprocess_run w ["cargo"; "deny"; "check"; "--format"; "json"]
    = Completed 0 (NotJson raw) →
  SecurityDashboard.deny_block w group = Raise JSONDecodeError.
Proof.
  intros H. unfold SecurityDashboard.deny_block, SecurityDashboard.run.
  rewrite H. reflexivity.
Qed.

Lemma run_security_audit_run (w : World) (st : State SecurityDashboard.Event) :
  SecurityDashboard.run_security_audit w st
  = (match SecurityDashboard.audit_block w ∅ with
     | Raise e => Raise e
     | Ok v =>
         match SecurityDashboard.deny_block w ∅ with
         | Raise e => Raise e
         | Ok c =>
             Ok {| SecurityDashboard.timestamp := clock w (now_calls st);
                   SecurityDashboard.vulnerabilities := v;
                   SecurityDashboard.compliance := c;
                   SecurityDashboard.dependencies := ∅;
                   SecurityDashboard.secrets := ∅ |}
         end
     end,
     {| now_calls := S (now_calls st); trace := trace st |}).
Proof.
  unfold SecurityDashboard.run_security_audit, mbind, M_bind, datetime_now, lift.
  destruct (SecurityDashboard.audit_block w ∅); [|done].
  destruct (SecurityDashboard.deny_block w ∅); done.
Qed.

Lemma generate_dashboard_raise (w : World) (self : SecurityDashboard.Self)
  (st : State SecurityDashboard.Event) (e : exn) :
  SecurityDashboard.audit_block w ∅ = Raise e ∨
  (∃ v, SecurityDashboard.audit_block w ∅ = Ok v ∧
        SecurityDashboard.deny_block w ∅ = Raise e) →
  SecurityDashboard.generate_dashboard w self st
  = (Raise e,
     {| now_calls := S (now_calls st);
        trace := trace st ++
          [SecurityDashboard.Print "Generating security dashboard..."] |}).
Proof.
  intros H. unfold SecurityDashboard.generate_dashboard.
  unfold mbind at 1 2. unfold M_bind at 1 2. unfold emit at 1.
  rewrite run_security_audit_run.
  destruct H as [-> | (v & -> & ->)]; done.
Qed.

Lemma generate_dashboard_ok (w : World) (self : SecurityDashboard.Self)
  (st : State SecurityDashboard.Event) (v c : gmap string SecurityDashboard.pyval) :
  SecurityDashboard.audit_block w ∅ = Ok v →
  SecurityDashboard.deny_block w ∅ = Ok c →
  open_write w "security-dashboard.html" = Written →
  open_write w "security-dashboard.json" = Written →
  ∃ am m h,
    SecurityDashboard.timestamp am = clock w (now_calls st) ∧
    SecurityDashboard.vulnerabilities am = v ∧
    SecurityDashboard.compliance am = c ∧
    SecurityDashboard.calculate_compliance_metrics w self = Ok m ∧
    SecurityDashboard.h_generated h = clock w (S (now_calls st)) ∧
    SecurityDashboard.h_vulnerabilities_count h
      = default (SecurityDashboard.PStr "N/A") (v !! "count") ∧
    SecurityDashboard.h_vulnerabilities_critical h
      = default (SecurityDashboard.PInt 0) (v !! "critical") ∧
    SecurityDashboard.h_tail h = SecurityDashboard.html_tail ∧
    SecurityDashboard.generate_dashboard w self st
    = (Ok tt,
       {| now_calls := S (S (S (now_calls st)));
          trace := trace st ++
            [SecurityDashboard.Print "Generating security dashboard...";
             SecurityDashboard.WriteFile "security-dashboard.html"
               (SecurityDashboard.HtmlContent h);
             SecurityDashboard.WriteFile "security-dashboard.json"
               (SecurityDashboard.JsonContent
                  {| SecurityDashboard.d_timestamp := clock w (S (S (now_calls st)));
                     SecurityDashboard.d_audit_metrics := am;
                     SecurityDashboard.d_compliance_metrics := m |});
             SecurityDashboard.Print "Security dashboard generated successfully!";
             SecurityDashboard.Print "- security-dashboard.html";
             SecurityDashboard.Print "- security-dashboard.json";
             SecurityDashboard.PrintSummary
               (SecurityDashboard.compliance_rate m)
               (SecurityDashboard.implemented_controls m)
               (SecurityDashboard.total_controls m)
               (SecurityDashboard.missing_controls m)
               (default (SecurityDashboard.PInt 0) (v !! "critical"))] |}).
Proof.
  intros Hv Hc Hhtml Hjson. eexists _, _, _.
  unfold SecurityDashboard.generate_dashboard.
  unfold mbind, M_bind, write_file, emit, lift, datetime_now.
  rewrite run_security_audit_run, Hv, Hc.
  rewrite calculate_compliance_metrics_run.
  rewrite generate_html_report_run, Hhtml, Hjson.
  cbn [now_calls trace]. rewrite <- !app_assoc. cbn [app].
  repeat split; reflexivity.
Qed.

Lemma dashboard_main_run (w : World) (rows : list SecurityDashboard.ControlRecord)
  (st : State SecurityDashboard.Event) :
  open_csv w "security_layers_checklist.csv" = CsvRows rows →
  SecurityDashboard.main w st
  = SecurityDashboard.generate_dashboard w
      {| SecurityDashboard.checklist_file := "security_layers_checklist.csv";
         SecurityDashboard.checklist := rows |} st.
Proof.
  intros H. unfold SecurityDashboard.main, SecurityDashboard.new,
    SecurityDashboard.load_checklist.
  rewrite H. reflexivity.
Qed.

(** Failures of a tool that the [except] clauses name, and non-zero exit
    codes, do not stop the dashboard: when both files can be written the
    run completes and writes them, with the compliance metrics of the
    checklist. *)
Lemma handled_tool_failures_complete (w : World) (self : SecurityDashboard.Self)
  (st : State SecurityDashboard.Event) :
  (subprocess_run w ["cargo"; "audit"; "--json"] ∈ [ProcNotFound; ProcTimeout; ProcError] ∨
   ∃ rc out, subprocess_run w ["cargo"; "audit"; "--json"] = Completed rc out ∧ rc ≠ 0%Z) →
  (subprocess_run w ["cargo"; "deny"; "check"; "--format"; "json"]
     ∈ [ProcNotFound; ProcTimeout; ProcError] ∨
   ∃ rc out, subprocess_run w ["cargo"; "deny"; "check"; "--format"; "json"]
               = Completed rc out ∧ rc ≠ 0%Z) →
  open_write w "security-dashboard.html" = Written →
  open_write w "security-dashboard.json" = Written →
  ∃ am m h st',
    SecurityDashboard.generate_dashboard w self st = (Ok tt, st') ∧
    SecurityDashboard.calculate_compliance_metrics w self = Ok m ∧
    SecurityDashboard.vulnerabilities am !! "count" = None ∧
    SecurityDashboard.vulnerabilities am !! "critical" = None ∧
    is_Some (SecurityDashboard.vulnerabilities am !! "error") ∧
    SecurityDashboard.compliance am !! "license_issues" = None ∧
    SecurityDashboard.compliance am !! "ban_issues" = None ∧
    is_Some (SecurityDashboard.compliance am !! "error") ∧
    SecurityDashboard.WriteFile "security-dashboard.html"
      (SecurityDashboard.HtmlContent h) ∈ trace st' ∧
    SecurityDashboard.WriteFile "security-dashboard.json"
      (SecurityDashboard.JsonContent
         {| SecurityDashboard.d_timestamp := clock w (S (S (now_calls st)));
            SecurityDashboard.d_audit_metrics := am;
            SecurityDashboard.d_compliance_metrics := m |}) ∈ trace st'.
Proof.
  intros Ha Hd Hhtml Hjson.
  assert (∃ msg, SecurityDashboard.audit_block w ∅
                 = Ok (<["error" := SecurityDashboard.PStr msg]> ∅)) as [ma Hma].
  { destruct Ha as [Ha | (rc & out & Ha & Hrc)]; eexists.
    - by apply audit_block_unavailable.
    - by eapply audit_block_failed. }
  assert (∃ msg, SecurityDashboard.deny_block w ∅
                 = Ok (<["error" := SecurityDashboard.PStr msg]> ∅)) as [md Hmd].
  { destruct Hd as [Hd | (rc & out & Hd & Hrc)]; eexists.
    - by apply deny_block_unavailable.
    - by eapply deny_block_failed. }
  destruct (generate_dashboard_ok w self st _ _ Hma Hmd Hhtml Hjson)
    as (am & m & h & _ & Hv & Hc & Hm & _ & _ & _ & _ & Hrun).
  exists am, m, h. eexists. split; [exact Hrun|]. split; [exact Hm|].
  rewrite Hv, Hc. cbn [trace].
  rewrite !lookup_insert_ne, !lookup_insert_eq, !lookup_empty by done.
  rewrite !elem_of_app, !elem_of_cons.
  repeat split; eauto 10.
Qed.



(** C6, the code at the failing input: no audit tool is installed. Both
    metric groups hold only the entry ["error"]; the HTML page shows "N/A"
    for the number of vulnerabilities and the number 0 for the critical
    ones, as does the console summary; the lines for license and ban
    issues are constant text of the page. *)
Theorem unavailable_audit_shows_zero_critical :
  ∃ am m h st',
    SecurityDashboard.main Examples.w_abc init = (Ok tt, st') ∧
    SecurityDashboard.vulnerabilities am
      = {["error" := SecurityDashboard.PStr "Cargo audit not available"]} ∧
    SecurityDashboard.compliance am
      = {["error" := SecurityDashboard.PStr "Cargo deny not available"]} ∧
    SecurityDashboard.WriteFile "security-dashboard.html"
      (SecurityDashboard.HtmlContent h) ∈ trace st' ∧
    SecurityDashboard.WriteFile "security-dashboard.json"
      (SecurityDashboard.JsonContent
         {| SecurityDashboard.d_timestamp := 2;
            SecurityDashboard.d_audit_metrics := am;
            SecurityDashboard.d_compliance_metrics := m |}) ∈ trace st' ∧
    SecurityDashboard.h_vulnerabilities_count h = SecurityDashboard.PStr "N/A" ∧
    SecurityDashboard.h_vulnerabilities_critical h = SecurityDashboard.PInt 0 ∧
    SecurityDashboard.h_tail h
      = ["<p>Critical Vulnerabilities: {audit_metrics['vulnerabilities'].get('critical', 0)}</p>";
         "<p>Total Vulnerabilities: {audit_metrics['vulnerabilities'].get('count', 'N/A')}</p>";
         "<p>License Issues: {audit_metrics['compliance'].get('license_issues', 'N/A')}</p>";
         "<p>Ban Issues: {audit_metrics['compliance'].get('ban_issues', 'N/A')}</p>"] ∧
    SecurityDashboard.PrintSummary
      (SecurityDashboard.compliance_rate m)
      (SecurityDashboard.implemented_controls m)
      (SecurityDashboard.total_controls m)
      (SecurityDashboard.missing_controls m)
      (SecurityDashboard.PInt 0) ∈ trace st'.
Proof.
  rewrite (dashboard_main_run Examples.w_abc Examples.checklist_abc) by reflexivity.
  destruct (generate_dashboard_ok Examples.w_abc
              {| SecurityDashboard.checklist_file := "security_layers_checklist.csv";
                 SecurityDashboard.checklist := Examples.checklist_abc |} init
              (<["error" := SecurityDashboard.PStr "Cargo audit not available"]> ∅)
              (<["error" := SecurityDashboard.PStr "Cargo deny not available"]> ∅))
    as (am & m & h & _ & Hv & Hc & _ & _ & Hcount & Hcrit & Htail & Hrun);
    [reflexivity..|].
  exists am, m, h. eexists. split; [exact Hrun|]. cbn [now_calls trace init].
  rewrite !elem_of_app, !elem_of_cons.
  split; [by rewrite Hv, insert_empty|]. split; [by rewrite Hc, insert_empty|].
  split; [auto 10|]. split; [auto 10|].
  split; [exact Hcount|]. split; [exact Hcrit|]. split; [exact Htail|].
  do 7 right. left. reflexivity.
Qed.

(** C7, the code at the failing input: [cargo-audit] is not installed and
    [cargo deny] exits with status 0 and empty output. [json.loads] raises
    [JSONDecodeError], which the [except] clause does not name: the run
    ends with that exception after the first console line, before the
    compliance metrics are computed and before any file is written. The
    same checklist with no tool installed gives a complete run. *)
Theorem silent_deny_aborts_dashboard :
  subprocess_run Examples.w_deny_silent ["cargo"; "audit"; "--json"] = ProcNotFound ∧
  subprocess_run Examples.w_deny_silent ["cargo"; "deny"; "check"; "--format"; "json"]
    = Completed 0 (NotJson "") ∧
  SecurityDashboard.main Examples.w_deny_silent init
    = (Raise JSONDecodeError,
       {| now_calls := 1;
          trace := [SecurityDashboard.Print "Generating security dashboard..."] |}) ∧
  (∃ st', SecurityDashboard.main Examples.w_abc init = (Ok tt, st')).
Proof.
  split; [reflexivity|]. split; [reflexivity|]. split.
  - rewrite (dashboard_main_run Examples.w_deny_silent Examples.checklist_abc)
      by reflexivity.
    rewrite (generate_dashboard_raise _ _ _ JSONDecodeError); [done|].
    right. eexists. split; reflexivity.
  - rewrite (dashboard_main_run Examples.w_abc Examples.checklist_abc) by reflexivity.
    destruct (generate_dashboard_ok Examples.w_abc
                {| SecurityDashboard.checklist_file := "security_layers_checklist.csv";
                   SecurityDashboard.checklist := Examples.checklist_abc |} init
                (<["error" := SecurityDashboard.PStr "Cargo audit not available"]> ∅)
                (<["error" := SecurityDashboard.PStr "Cargo deny not available"]> ∅))
      as (am & m & h & _ & _ & _ & _ & _ & _ & _ & _ & Hrun); [reflexivity..|].
    eexists. exact Hrun.
Qed.

(** C9, the code at the failing input: the checklist is loaded, and
    [cargo audit --json] exits with status 0 after printing text that is
    not JSON. The dashboard run ends with [JSONDecodeError] after its first
    console line; nothing is written. *)
Theorem garbled_audit_halts_output :
  open_csv Examples.w_audit_garbled "security_layers_checklist.csv"
    = CsvRows Examples.checklist_abc ∧
  subprocess_run Examples.w_audit_garbled ["cargo"; "audit"; "--json"]
    = Completed 0 (NotJson "Fetching advisory database") ∧
  SecurityDashboard.main Examples.w_audit_garbled init
    = (Raise JSONDecodeError,
       {| now_calls := 1;
          trace := [SecurityDashboard.Print "Generating security dashboard..."] |}).
Proof.
  split; [reflexivity|]. split; [reflexivity|].
  rewrite (dashboard_main_run Examples.w_audit_garbled Examples.checklist_abc)
    by reflexivity.
  rewrite (generate_dashboard_raise _ _ _ JSONDecodeError); [done|].
  left. reflexivity.
Qed.

End Runs.

(** ** Further properties of the report script *)
Section ReportScript.

Import ComplianceReport.

Lemma filter_length_perm {A} (f : A → bool) (l l' : list A) :
  l ≡ₚ l' → length (List.filter f l) = length (List.filter f l').
Proof.
  induction 1 as [|x l l' _ IH|x y l|l l' l'' _ IH1 _ IH2]; simpl.
  - done.
  - destruct (f x); simpl; by rewrite IH.
  - destruct (f x), (f y); done.
  - by rewrite IH1.
Qed.

(** X1. The ways the report script ends. When the checklist file is absent,
    or cannot be read, the run ends with [SystemExit(1)] after one console
    line, without reading the clock and without writing a file. When the
    run returns normally, the checklist existed and was read, both report
    files were written, the clock was read exactly once, and the console
    shows the text report that was written, followed by the names of the
    two files. The two files are written outside any [try]: when the text
    report cannot be written the run does not return normally and the JSON
    report is not written; when either file cannot be written the report
    is not printed on the console. *)
Theorem report_main_outcome (w : World) (st : State Event) :
  ((os_path_exists w "security_layers_checklist.csv" = false ∨
    ∀ rows, open_csv w "security_layers_checklist.csv" ≠ CsvRows rows) →
   ∃ msg, main w st
          = (Raise (SystemExit 1),
             {| now_calls := now_calls st;
                trace := (trace st ++ [Print msg])%list |})) ∧
  (∀ st', main w st = (Ok tt, st') →
     os_path_exists w "security_layers_checklist.csv" = true ∧
     open_write w "security-compliance-report.txt" = Written ∧
     open_write w "security-compliance-report.json" = Written ∧
     ∃ rows s tr,
       open_csv w "security_layers_checklist.csv" = CsvRows rows ∧
       generate_summary w (assess_control w <$> rows) st
         = (Ok s, {| now_calls := S (now_calls st); trace := trace st |}) ∧
       generate_text_report (assess_control w <$> rows) s = Ok tr ∧
       st' = {| now_calls := S (now_calls st);
                trace := (trace st ++
                  [WriteFile "security-compliance-report.txt" (TextContent tr);
                   WriteFile "security-compliance-report.json"
                     (JsonContent {| j_summary := s;
                                     j_assessments := assess_control w <$> rows |});
                   PrintReport tr;
                   Print (String "010"%char "Reports saved:");
                   Print "- security-compliance-report.txt";
                   Print "- security-compliance-report.json"])%list |}) ∧
  (∀ r st', main w st = (r, st') →
     open_write w "security-compliance-report.txt" ≠ Written ∨
     open_write w "security-compliance-report.json" ≠ Written →
     r ≠ Ok tt ∧
     ∃ evs, trace st' = (trace st ++ evs)%list ∧
            (∀ tr, PrintReport tr ∉ evs) ∧
            (open_write w "security-compliance-report.txt" ≠ Written →
             ∀ c, WriteFile "security-compliance-report.json" c ∉ evs)).
Proof.
  unfold main, load_checklist.
  destruct (os_path_exists w "security_layers_checklist.csv") eqn:Hex; cbn [negb].
  2:{ split; [intros _; eexists; reflexivity|]. split; [intros st' [=]|].
      intros r st' [= <- <-] _. split; [done|]. eexists [_].
      split; [done|]. split; [intros tr|intros _ c];
        rewrite elem_of_cons, elem_of_nil; by intros [|]. }
  destruct (open_csv w "security_layers_checklist.csv") as [rows| |msg] eqn:Hopen.
  2,3: (split; [intros _; eexists; reflexivity|]; split; [intros st' [=]|];
        intros r st' [= <- <-] _; split; [done|]; eexists [_];
        split; [done|]; split; [intros tr|intros _ c];
        rewrite elem_of_cons, elem_of_nil; by intros [|]).
  split; [intros [[=]|H]; by destruct (H rows)|].
  unfold mbind, M_bind, mret, M_ret. rewrite generate_summary_run.
  unfold lift. rewrite generate_text_report_run. unfold write_file.
  destruct (open_write w "security-compliance-report.txt") eqn:Htxt;
    [destruct (open_write w "security-compliance-report.json") eqn:Hjson|..];
    unfold emit, raise, lift, mbind, M_bind; cbn [now_calls trace];
    rewrite <- ?app_assoc; cbn [app].
  - split.
    + intros st' [= <-]. do 3 (split; [done|]). eexists _, _, _.
      split; [done|]. split; [apply generate_summary_run|].
      split; [apply generate_text_report_run|]. done.
    + by intros r st' _ [|].
  - split; [intros st' [=]|]. intros r st' [= <- <-] _. split; [done|].
    eexists [_]. split; [done|]. split; [intros tr|by intros []].
    rewrite elem_of_cons, elem_of_nil. by intros [|].
  - split; [intros st' [=]|]. intros r st' [= <- <-] _. split; [done|].
    eexists [_; _]. split; [done|]. split; [intros tr|by intros []].
    rewrite !elem_of_cons, elem_of_nil. by intros [|[|]].
  - split; [intros st' [=]|]. intros r st' [= <- <-] _. split; [done|].
    exists []. split; [by rewrite app_nil_r|].
    split; [intros tr|intros _ c]; apply not_elem_of_nil.
  - split; [intros st' [=]|]. intros r st' [= <- <-] _. split; [done|].
    eexists [_]. split; [done|]. split; [intros tr|intros _ c];
      rewrite elem_of_cons, elem_of_nil; by intros [|].
Qed.

(** The three statuses in terms of the checklist row. *)
Lemma status_of_row (w : World) (row : ControlRecord) :
  let artifact := dict_get row "Policy/Config Artifact" (Some "") in
  String.eqb (status (assess_control w row)) "Implemented"
    = truthy artifact && check_artifact_exists w artifact ∧
  String.eqb (status (assess_control w row)) "Missing"
    = truthy artifact && negb (check_artifact_exists w artifact) ∧
  String.eqb (status (assess_control w row)) "Not Applicable"
    = negb (truthy artifact).
Proof.
  intros artifact.
  destruct (assess_control_cases w row)
    as [(He & Hs & _) | [(Hne & Hc & Hs & _) | (Hne & Hc & Hs & _)]];
    fold artifact in He || fold artifact in Hne, Hc; rewrite Hs.
  - apply truthy_false in He. by rewrite He.
  - apply truthy_true in Hne. by rewrite Hne, Hc.
  - apply truthy_true in Hne. by rewrite Hne, Hc.
Qed.

Lemma with_status_rows (w : World) (s : string) (rows : list ControlRecord) :
  Spec.with_status s (assess_control w <$> rows)
  = length (List.filter (λ row, String.eqb (status (assess_control w row)) s) rows).
Proof.
  unfold Spec.with_status.
  induction rows as [|row rows IH]; [done|].
  rewrite fmap_cons. cbn [List.filter].
  destruct (String.eqb (status (assess_control w row)) s); cbn [length]; by rewrite IH.
Qed.

(** X2. From the checklist to the summary: the number of implemented
    controls is the number of rows with a non-empty artifact that the
    resolver finds, the number of missing controls the number of rows with
    a non-empty artifact that it does not find, the number of
    not-applicable controls the number of rows without artifact; the three
    add up to the number of rows, whatever the rows contain, and the text
    report prints the same four numbers. *)
Theorem report_pipeline_counts {E} (w : World) (rows : list ControlRecord) (st : State E) :
  let artifact_of := λ row : ControlRecord, dict_get row "Policy/Config Artifact" (Some "") in
  ∃ s st' tr,
    generate_summary w (assess_control w <$> rows) st = (Ok s, st') ∧
    generate_text_report (assess_control w <$> rows) s = Ok tr ∧
    total_controls s = length rows ∧
    implemented s
      = length (List.filter
                  (λ row, truthy (artifact_of row)
                          && check_artifact_exists w (artifact_of row)) rows) ∧
    missing s
      = length (List.filter
                  (λ row, truthy (artifact_of row)
                          && negb (check_artifact_exists w (artifact_of row))) rows) ∧
    not_applicable s
      = length (List.filter (λ row, negb (truthy (artifact_of row))) rows) ∧
    implemented s + missing s + not_applicable s = length rows ∧
    t_total_controls tr = total_controls s ∧
    t_implemented tr = implemented s ∧
    t_missing tr = missing s ∧
    t_not_applicable tr = not_applicable s.
Proof.
  intros artifact_of. rewrite generate_summary_run. eexists _, _, _.
  split; [reflexivity|]. rewrite generate_text_report_run. split; [reflexivity|].
  cbn [total_controls implemented missing not_applicable
       t_total_controls t_implemented t_missing t_not_applicable].
  rewrite length_fmap. split; [done|].
  assert (Hext : ∀ (f g : ControlRecord → bool), (∀ row, f row = g row) →
            length (List.filter f rows) = length (List.filter g rows)).
  { intros f g Hfg. f_equal. apply List.filter_ext. done. }
  split; [|split; [|split; [|split]]].
  - rewrite with_status_rows. apply Hext. intros row.
    by destruct (status_of_row w row) as (-> & _ & _).
  - rewrite with_status_rows. apply Hext. intros row.
    by destruct (status_of_row w row) as (_ & -> & _).
  - rewrite with_status_rows. apply Hext. intros row.
    by destruct (status_of_row w row) as (_ & _ & ->).
  - transitivity (length (assess_control w <$> rows)); [|apply length_fmap].
    apply valid_total.
    apply Forall_fmap, Forall_forall. intros row _. apply assess_control_valid.
  - done.
Qed.

(** X3. The section "MISSING CONTROLS" of the text report lists exactly the
    controls whose artifact is non-empty and not found by the resolver,
    in checklist order, each with the layer, group, control and artifact
    cells of its row; their number is the summary's missing count. *)
Theorem missing_controls_section (w : World) (rows : list ControlRecord) (s : Summary) :
  let artifact_of := λ row : ControlRecord, dict_get row "Policy/Config Artifact" (Some "") in
  ∃ tr,
    generate_text_report (assess_control w <$> rows) s = Ok tr ∧
    t_missing_controls tr
    = (λ row, {| mc_layer_number := dict_get row "Layer #" (Some "");
                 mc_control_group := dict_get row "Control Group" (Some "");
                 mc_control := dict_get row "Control" (Some "");
                 mc_artifact := artifact_of row |})
      <$> List.filter
            (λ row, truthy (artifact_of row)
                    && negb (check_artifact_exists w (artifact_of row))) rows ∧
    length (t_missing_controls tr)
    = Spec.with_status "Missing" (assess_control w <$> rows).
Proof.
  intros artifact_of. rewrite generate_text_report_run. eexists. split; [reflexivity|].
  cbn [t_missing_controls]. split.
  - induction rows as [|row rows IH]; [done|].
    rewrite fmap_cons. cbn [List.filter].
    destruct (status_of_row w row) as (_ & -> & _). fold (artifact_of row).
    destruct (truthy (artifact_of row) && negb (check_artifact_exists w (artifact_of row)));
      [rewrite !fmap_cons; f_equal|]; exact IH.
  - by rewrite length_fmap.
Qed.

Lemma with_status_perm (s : string) (l l' : list Assessment) :
  l ≡ₚ l' → Spec.with_status s l = Spec.with_status s l'.
Proof. apply filter_length_perm. Qed.

(** X4. The summary does not depend on the order of the assessments: two
    lists that are permutations of each other give the same counters, the
    same rate and the same entry for every layer. *)
Theorem summary_order_independent {E} (w : World) (l l' : list Assessment) (st : State E) :
  l ≡ₚ l' → generate_summary w l st = generate_summary w l' st.
Proof.
  intros Hp. rewrite !generate_summary_run.
  rewrite (Permutation_length Hp).
  rewrite !(with_status_perm _ l l' Hp).
  do 3 f_equal. apply map_eq. intros k.
  rewrite !layer_statistics_lookup.
  unfold Spec.layer_size, Spec.in_layer.
  by rewrite !(filter_length_perm _ l l' Hp).
Qed.

(** X4, instance: the three assessments of the scenario, reversed. *)
Lemma summary_order_independent_witness :
  Examples.assessments_abc ≡ₚ reverse Examples.assessments_abc ∧
  generate_summary (E := Event) Examples.w_abc Examples.assessments_abc init
  = generate_summary Examples.w_abc (reverse Examples.assessments_abc) init.
Proof.
  assert (Hp : Examples.assessments_abc ≡ₚ reverse Examples.assessments_abc).
  { symmetry. apply reverse_Permutation. }
  split; [exact Hp|].
  apply (summary_order_independent Examples.w_abc _ _ init Hp).
Defined.

End ReportScript.

(** ** Further properties of the dashboard script *)
Section DashboardScript.

Lemma rate_fraction (i a : nat) :
  (Spec.rate i (S a) == (100 * Z.of_nat i) # Pos.of_succ_nat a)%Q.
Proof.
  unfold Spec.rate, inject_nat, Qdiv, Qmult, Qinv, Qeq, inject_Z.
  change (Z.of_nat (S a)) with (Z.pos (Pos.of_succ_nat a)).
  cbn [Qnum Qden]. rewrite Pos.mul_1_l, Pos.mul_1_r. ring.
Qed.

Lemma rate_antitone (i a t : nat) :
  a ≤ t → i ≤ a → (Spec.rate i t <= Spec.rate i a)%Q.
Proof.
  intros Hat Hia. destruct a as [|a].
  - assert (i = 0) as -> by lia. destruct t as [|t]; [done|].
    rewrite rate_fraction. done.
  - destruct t as [|t]; [lia|].
    rewrite !rate_fraction. unfold Qle. cbn [Qnum Qden]. nia.
Qed.

(** X5. On the same checklist and file system the two scripts count the
    same controls as implemented and as missing, and the same total; the
    dashboard's total is the report's applicable plus not-applicable
    controls, so the dashboard's rate is never above the report's rate,
    and equals it when no control lacks an artifact. *)
Theorem dashboard_agrees_with_report {E} (w : World) (self : SecurityDashboard.Self)
  (st : State E) :
  ∃ s st' m,
    ComplianceReport.generate_summary w
      (ComplianceReport.assess_control w <$> SecurityDashboard.checklist self) st
      = (Ok s, st') ∧
    SecurityDashboard.calculate_compliance_metrics w self = Ok m ∧
    SecurityDashboard.total_controls m = ComplianceReport.total_controls s ∧
    SecurityDashboard.implemented_controls m = ComplianceReport.implemented s ∧
    SecurityDashboard.missing_controls m = ComplianceReport.missing s ∧
    SecurityDashboard.total_controls m
      = ComplianceReport.applicable s + ComplianceReport.not_applicable s ∧
    (SecurityDashboard.compliance_rate m <= ComplianceReport.compliance_rate s)%Q ∧
    (ComplianceReport.not_applicable s = 0 →
     SecurityDashboard.compliance_rate m = ComplianceReport.compliance_rate s).
Proof.
  rewrite generate_summary_run, calculate_compliance_metrics_run.
  eexists _, _, _. split; [reflexivity|]. split; [reflexivity|].
  cbn [SecurityDashboard.total_controls SecurityDashboard.implemented_controls
       SecurityDashboard.missing_controls SecurityDashboard.compliance_rate
       ComplianceReport.total_controls ComplianceReport.implemented
       ComplianceReport.missing ComplianceReport.applicable
       ComplianceReport.not_applicable ComplianceReport.compliance_rate].
  set (l := ComplianceReport.assess_control w <$> SecurityDashboard.checklist self).
  assert (Hlen : length l = length (SecurityDashboard.checklist self))
    by apply length_fmap.
  assert (Htot : Spec.with_status "Implemented" l + Spec.with_status "Missing" l
                 + Spec.with_status "Not Applicable" l = length l).
  { apply valid_total. apply Forall_fmap, Forall_forall.
    intros row _. apply assess_control_valid. }
  rewrite <- Hlen.
  split; [done|]. split; [done|]. split; [done|]. split; [lia|]. split.
  - apply rate_antitone; lia.
  - intros Hna. f_equal. lia.
Qed.

Lemma keyed_row (w : World) (row : ComplianceReport.ControlRecord) :
  is_Some (row !! "Layer #") →
  Spec.dashboard_key row
  = ComplianceReport.layer_number (ComplianceReport.assess_control w row).
Proof.
  intros [c Hc]. unfold Spec.dashboard_key, ComplianceReport.assess_control, dict_get.
  cbn [ComplianceReport.layer_number]. by rewrite Hc.
Qed.

Lemma keyed_rows_of (w : World) (rows : list ComplianceReport.ControlRecord) (k : cell) :
  Forall (λ row, is_Some (row !! "Layer #")) rows →
  Spec.rows_of k rows = Spec.layer_size k (ComplianceReport.assess_control w <$> rows) ∧
  ∀ s, Spec.rows_of_with w k s rows
       = Spec.in_layer k s (ComplianceReport.assess_control w <$> rows).
Proof.
  unfold Spec.rows_of, Spec.layer_size, Spec.rows_of_with, Spec.in_layer.
  induction 1 as [|row rows Hrow _ [IH1 IH2]]; [done|].
  rewrite fmap_cons. cbn [List.filter]. rewrite (keyed_row w row Hrow).
  split.
  - destruct (bool_decide _); cbn [length]; by rewrite IH1.
  - intros s. destruct (bool_decide _ && _); cbn [length]; by rewrite IH2.
Qed.

(** X6. When every row of the checklist has a cell in the column
    "Layer #", the dashboard groups the rows as the report does: its layer
    map is the report's layer map with, in each entry, total = implemented
    + missing + not_applicable and the same implemented and missing
    counts. A row without that column is grouped under "Unknown" by the
    dashboard and under the empty string by the report. *)
Theorem layer_groups_agree (w : World) (rows : list ComplianceReport.ControlRecord) :
  Forall (λ row, is_Some (row !! "Layer #")) rows →
  fold_left (SecurityDashboard.layer_step w) rows ∅
  = (λ ls, {| SecurityDashboard.l_total :=
                ComplianceReport.l_implemented ls + ComplianceReport.l_missing ls
                + ComplianceReport.l_not_applicable ls;
              SecurityDashboard.l_implemented := ComplianceReport.l_implemented ls;
              SecurityDashboard.l_missing := ComplianceReport.l_missing ls |})
    <$> fold_left ComplianceReport.layer_step
          (ComplianceReport.assess_control w <$> rows) ∅ ∧
  (∀ row : ComplianceReport.ControlRecord, row !! "Layer #" = None →
     Spec.dashboard_key row = Some "Unknown" ∧
     ComplianceReport.layer_number (ComplianceReport.assess_control w row) = Some "").
Proof.
  intros Hrows. split.
  - apply map_eq. intros k.
    rewrite lookup_fmap, layer_metrics_lookup, layer_statistics_lookup.
    destruct (keyed_rows_of w rows k Hrows) as [-> Hwith]. rewrite !Hwith.
    case_decide; [done|]. cbn [fmap option_fmap option_map]. do 2 f_equal.
    cbn [ComplianceReport.l_implemented ComplianceReport.l_missing
         ComplianceReport.l_not_applicable].
    symmetry. apply valid_layer_total. apply Forall_fmap, Forall_forall.
    intros row _. apply assess_control_valid.
  - intros row Hnone.
    unfold Spec.dashboard_key, ComplianceReport.assess_control, dict_get.
    cbn [ComplianceReport.layer_number]. by rewrite Hnone.
Qed.

(** X6, instance: the three rows of the scenario all have a layer cell. *)
Lemma layer_groups_agree_witness :
  Forall (λ row : ComplianceReport.ControlRecord, is_Some (row !! "Layer #"))
    Examples.checklist_abc ∧
  fold_left (SecurityDashboard.layer_step Examples.w_abc) Examples.checklist_abc ∅
    !! Some "1"
  = Some {| SecurityDashboard.l_total := 2;
            SecurityDashboard.l_implemented := 1;
            SecurityDashboard.l_missing := 0 |}.
Proof.
  assert (H : Forall (λ row : ComplianceReport.ControlRecord, is_Some (row !! "Layer #"))
                Examples.checklist_abc).
  { repeat constructor; eexists; reflexivity. }
  split; [exact H|].
  destruct (layer_groups_agree Examples.w_abc Examples.checklist_abc H) as [-> _].
  reflexivity.
Defined.

Lemma critical_only_filter (items : list json) :
  SecurityDashboard.critical_only items
  = if forallb Spec.is_object items
    then Ok (List.filter Spec.critical_entry items)
    else Raise AttributeError.
Proof.
  induction items as [|v items IH]; [done|].
  cbn [SecurityDashboard.critical_only forallb List.filter].
  destruct v as [| | | | |l]; try done.
  cbn [SecurityDashboard.json_get Spec.is_object andb mbind result_bind].
  rewrite IH. destruct (forallb Spec.is_object items); [|done].
  cbn [Spec.critical_entry]. cbn [mbind result_bind mret result_ret].
  destruct (SecurityDashboard.assoc "severity" l) as [[| | |s| |]|]; done.
Qed.




(** X8. When [cargo deny] exits with status 0 and prints a JSON object,
    the numbers of license and ban issues are the lengths of the lists
    under "licenses" and "bans"; a key that is absent counts as zero
    issues. *)
Theorem deny_block_counts (w : World) (l : list (string * json)) (licenses bans : list json) :
  subprocess_run w ["cargo"; "deny"; "check"; "--format"; "json"]
    = Completed 0 (Json (JObj l)) →
  default (JArr []) (SecurityDashboard.assoc "licenses" l) = JArr licenses →
  default (JArr []) (SecurityDashboard.assoc "bans" l) = JArr bans →
  SecurityDashboard.deny_block w ∅
  = Ok (<["ban_issues" := SecurityDashboard.PInt (length bans)]>
          (<["license_issues" := SecurityDashboard.PInt (length licenses)]> ∅)) ∧
  (SecurityDashboard.assoc "licenses" l = None → length licenses = 0) ∧
  (SecurityDashboard.assoc "bans" l = None → length bans = 0).
Proof.
  intros Hrun Hl Hb. split; [|split].
  - unfold SecurityDashboard.deny_block, SecurityDashboard.run. rewrite Hrun.
    cbn [mbind result_bind Z.eqb SecurityDashboard.json_loads SecurityDashboard.json_get].
    rewrite Hl. cbn [SecurityDashboard.py_len mbind result_bind].
    rewrite Hb. reflexivity.
  - intros H. rewrite H in Hl. by injection Hl as <-.
  - intros H. rewrite H in Hb. by injection Hb as <-.
Qed.

(** X8, instance: [cargo deny] prints the empty object. *)
Lemma deny_block_counts_witness :
  subprocess_run Examples.w_tools ["cargo"; "deny"; "check"; "--format"; "json"]
    = Completed 0 (Json (JObj [])) ∧
  SecurityDashboard.deny_block Examples.w_tools ∅
  = Ok (<["ban_issues" := SecurityDashboard.PInt 0]>
          (<["license_issues" := SecurityDashboard.PInt 0]> ∅)).
Proof.
  split; [reflexivity|].
  destruct (deny_block_counts Examples.w_tools [] [] []) as [H _].
  - reflexivity.
  - reflexivity.
  - reflexivity.
  - exact H.
Defined.

(** X9. When [cargo audit] exits with status 0 and prints a JSON object
    whose "vulnerabilities" is a list, the block records the length of the
    list as count and the number of its objects whose "severity" is
    "critical" as critical, provided every element is an object; one
    element that is not an object makes the block raise [AttributeError]. *)
Theorem audit_block_counts (w : World) (l : list (string * json)) (items : list json) :
  subprocess_run w ["cargo"; "audit"; "--json"] = Completed 0 (Json (JObj l)) →
  default (JArr []) (SecurityDashboard.assoc "vulnerabilities" l) = JArr items →
  SecurityDashboard.audit_block w ∅
  = if forallb Spec.is_object items
    then Ok (<["critical" :=
                 SecurityDashboard.PInt (length (List.filter Spec.critical_entry items))]>
               (<["count" := SecurityDashboard.PInt (length items)]> ∅))
    else Raise AttributeError.
Proof.
  intros Hrun Hitems.
  unfold SecurityDashboard.audit_block, SecurityDashboard.run. rewrite Hrun.
  cbn [mbind result_bind Z.eqb SecurityDashboard.json_loads SecurityDashboard.json_get].
  rewrite Hitems.
  cbn [SecurityDashboard.py_len SecurityDashboard.py_iter mbind result_bind].
  rewrite critical_only_filter. by destruct (forallb Spec.is_object items).
Qed.

(** X9, instance: two advisories, one critical. *)
Lemma audit_block_counts_witness :
  subprocess_run Examples.w_tools ["cargo"; "audit"; "--json"]
    = Completed 0 (Json Examples.audit_two) ∧
  SecurityDashboard.audit_block Examples.w_tools ∅
  = Ok (<["critical" := SecurityDashboard.PInt 1]>
          (<["count" := SecurityDashboard.PInt 2]> ∅)).
Proof.
  split; [reflexivity|].
  rewrite (audit_block_counts Examples.w_tools
             [("vulnerabilities",
               JArr [JObj [("id", JStr "RUSTSEC-0001"); ("severity", JStr "critical")];
                     JObj [("id", JStr "RUSTSEC-0002"); ("severity", JStr "low")]])]
             [JObj [("id", JStr "RUSTSEC-0001"); ("severity", JStr "critical")];
              JObj [("id", JStr "RUSTSEC-0002"); ("severity", JStr "low")]]).
  - reflexivity.
  - reflexivity.
  - reflexivity.
Defined.

(** X10. When [cargo audit] exits with status 0 and prints a JSON object
    whose "vulnerabilities" is itself a non-empty object, the loop over it
    visits its keys, which are strings without a method [get]: the
    dashboard run ends with [AttributeError] after its first console
    line, before the compliance metrics are computed and before any file
    is written. *)
Theorem audit_object_aborts (w : World) (self : SecurityDashboard.Self)
  (st : State SecurityDashboard.Event) (l : list (string * json))
  (entry : string * json) (entries : list (string * json)) :
  subprocess_run w ["cargo"; "audit"; "--json"] = Completed 0 (Json (JObj l)) →
  default (JArr []) (SecurityDashboard.assoc "vulnerabilities" l)
    = JObj (entry :: entries) →
  SecurityDashboard.generate_dashboard w self st
  = (Raise AttributeError,
     {| now_calls := S (now_calls st);
        trace := trace st ++
          [SecurityDashboard.Print "Generating security dashboard..."] |}).
Proof.
  intros Hrun Hobj. apply generate_dashboard_raise. left.
  unfold SecurityDashboard.audit_block, SecurityDashboard.run. rewrite Hrun.
  cbn [mbind result_bind Z.eqb SecurityDashboard.json_loads SecurityDashboard.json_get].
  rewrite Hobj. reflexivity.
Qed.

(** X10, instance: the advisories printed as an object with three entries. *)
Lemma audit_object_aborts_witness :
  subprocess_run Examples.w_audit_object ["cargo"; "audit"; "--json"]
    = Completed 0 (Json Examples.audit_object) ∧
  SecurityDashboard.generate_dashboard Examples.w_audit_object Examples.self_abc init
  = (Raise AttributeError,
     {| now_calls := 1;
        trace := [SecurityDashboard.Print "Generating security dashboard..."] |}).
Proof.
  split; [reflexivity|].
  apply (audit_object_aborts Examples.w_audit_object Examples.self_abc init
           [("vulnerabilities",
             JObj [("found", JBool false); ("count", JNum 0); ("list", JArr [])])]
           ("found", JBool false) [("count", JNum 0); ("list", JArr [])]).
  - reflexivity.
  - reflexivity.
Defined.

Lemma try_except_raise {A} (body : result A) (handler : A) (e : exn) :
  SecurityDashboard.try_except body handler = Raise e →
  SecurityDashboard.caught e = false.
Proof.
  destruct body as [a|e']; cbn; [discriminate|].
  destruct (SecurityDashboard.caught e') eqn:He'; [discriminate|].
  by intros [= <-].
Qed.

Lemma tool_block_uncaught (w : World) (group : gmap string SecurityDashboard.pyval) (e : exn) :
  SecurityDashboard.audit_block w group = Raise e ∨
  SecurityDashboard.deny_block w group = Raise e →
  SecurityDashboard.caught e = false.
Proof. intros [H|H]; exact (try_except_raise _ _ _ H). Qed.

(** X11. The ways the dashboard script ends. When the checklist cannot be
    read the run ends with [SystemExit(1)] after one console line, without
    reading the clock. When the run returns normally, the checklist was
    read, the clock was read three times, the HTML page was written and
    then the JSON document, and both agree with each other and with the
    console summary on the compliance rate and on the implemented, total
    and missing counts. When [run_security_audit] raises, the run ends
    with that exception, which is none of those the [except] clauses name,
    after one clock reading and one console line, with no file written.
    The two files are written outside any [try]: when either cannot be
    written the run does not return normally and no summary is printed;
    when the HTML page cannot be written the clock is not read a third
    time and the JSON document is not written. *)
Theorem dashboard_main_outcome (w : World) (st : State SecurityDashboard.Event) :
  ((∀ rows, open_csv w "security_layers_checklist.csv" ≠ CsvRows rows) →
   ∃ msg, SecurityDashboard.main w st
          = (Raise (SystemExit 1),
             {| now_calls := now_calls st;
                trace := (trace st ++ [SecurityDashboard.Print msg])%list |})) ∧
  (∀ st', SecurityDashboard.main w st = (Ok tt, st') →
      open_write w "security-dashboard.html" = Written ∧
      open_write w "security-dashboard.json" = Written ∧
      ∃ rows am m h,
        open_csv w "security_layers_checklist.csv" = CsvRows rows ∧
        SecurityDashboard.calculate_compliance_metrics w
          {| SecurityDashboard.checklist_file := "security_layers_checklist.csv";
             SecurityDashboard.checklist := rows |} = Ok m ∧
        now_calls st' = S (S (S (now_calls st))) ∧
        trace st'
        = (trace st ++
           [SecurityDashboard.Print "Generating security dashboard...";
            SecurityDashboard.WriteFile "security-dashboard.html"
              (SecurityDashboard.HtmlContent h);
            SecurityDashboard.WriteFile "security-dashboard.json"
              (SecurityDashboard.JsonContent
                 {| SecurityDashboard.d_timestamp := clock w (S (S (now_calls st)));
                    SecurityDashboard.d_audit_metrics := am;
                    SecurityDashboard.d_compliance_metrics := m |});
            SecurityDashboard.Print "Security dashboard generated successfully!";
            SecurityDashboard.Print "- security-dashboard.html";
            SecurityDashboard.Print "- security-dashboard.json";
            SecurityDashboard.PrintSummary
              (SecurityDashboard.compliance_rate m)
              (SecurityDashboard.implemented_controls m)
              (SecurityDashboard.total_controls m)
              (SecurityDashboard.missing_controls m)
              (SecurityDashboard.h_vulnerabilities_critical h)])%list ∧
        SecurityDashboard.h_compliance_rate h = SecurityDashboard.compliance_rate m ∧
        SecurityDashboard.h_implemented_controls h
          = SecurityDashboard.implemented_controls m ∧
        SecurityDashboard.h_total_controls h = SecurityDashboard.total_controls m ∧
        SecurityDashboard.h_missing_controls h = SecurityDashboard.missing_controls m ∧
        SecurityDashboard.h_vulnerabilities_count h
          = default (SecurityDashboard.PStr "N/A")
              (SecurityDashboard.vulnerabilities am !! "count") ∧
        SecurityDashboard.h_vulnerabilities_critical h
          = default (SecurityDashboard.PInt 0)
              (SecurityDashboard.vulnerabilities am !! "critical")) ∧
  (∀ rows e,
      open_csv w "security_layers_checklist.csv" = CsvRows rows →
      fst (SecurityDashboard.run_security_audit w st) = Raise e →
      SecurityDashboard.caught e = false ∧
      SecurityDashboard.main w st
      = (Raise e,
         {| now_calls := S (now_calls st);
            trace := (trace st ++
              [SecurityDashboard.Print "Generating security dashboard..."])%list |})) ∧
  (∀ r st', SecurityDashboard.main w st = (r, st') →
      open_write w "security-dashboard.html" ≠ Written ∨
      open_write w "security-dashboard.json" ≠ Written →
      r ≠ Ok tt ∧
      ∃ evs, trace st' = (trace st ++ evs)%list ∧
             (∀ rate i t m c, SecurityDashboard.PrintSummary rate i t m c ∉ evs) ∧
             (open_write w "security-dashboard.html" ≠ Written →
              now_calls st' ≤ S (S (now_calls st)) ∧
              ∀ c, SecurityDashboard.WriteFile "security-dashboard.json" c ∉ evs)).
Proof.
  destruct (open_csv w "security_layers_checklist.csv") as [rows| |msg] eqn:Hopen.
  2,3: (destruct (dashboard_main_unreadable w st) as [m Hm];
        [intros rows; by rewrite Hopen|];
        rewrite Hm; split; [intros _; eauto|]; split; [intros st' [=]|];
        split; [intros rows e [=]|];
        intros r st' [= <- <-] _; split; [done|]; eexists [_];
        split; [done|]; cbn [now_calls];
        split; [intros ?????|intros _; split; [lia|intros c]];
        rewrite elem_of_cons, elem_of_nil; by intros [|]).
  split; [intros H; by destruct (H rows)|].
  rewrite (dashboard_main_run w rows st Hopen).
  set (self := {| SecurityDashboard.checklist_file := "security_layers_checklist.csv";
                  SecurityDashboard.checklist := rows |}).
  rewrite run_security_audit_run. cbn [fst].
  destruct (SecurityDashboard.audit_block w ∅) as [v|e] eqn:Hv.
  2:{ rewrite (generate_dashboard_raise w self st e) by auto.
      split; [intros st' [=]|]. split.
      - intros ? e' _ [= <-]. split; [|done]. apply (tool_block_uncaught w ∅). auto.
      - intros r st' [= <- <-] _. split; [done|]. eexists [_].
        split; [done|]. cbn [now_calls].
        split; [intros ?????|intros _; split; [lia|intros c]];
          rewrite elem_of_cons, elem_of_nil; by intros [|]. }
  destruct (SecurityDashboard.deny_block w ∅) as [c|e] eqn:Hc.
  2:{ rewrite (generate_dashboard_raise w self st e) by eauto.
      split; [intros st' [=]|]. split.
      - intros ? e' _ [= <-]. split; [|done]. apply (tool_block_uncaught w ∅). auto.
      - intros r st' [= <- <-] _. split; [done|]. eexists [_].
        split; [done|]. cbn [now_calls].
        split; [intros ?????|intros _; split; [lia|intros c']];
          rewrite elem_of_cons, elem_of_nil; by intros [|]. }
  unfold SecurityDashboard.generate_dashboard.
  unfold mbind, M_bind, write_file, emit, lift, datetime_now.
  rewrite run_security_audit_run, Hv, Hc.
  rewrite calculate_compliance_metrics_run.
  rewrite generate_html_report_run.
  match goal with
  | |- context [SecurityDashboard.HtmlContent ?x] => set (h := x)
  end.
  destruct (open_write w "security-dashboard.html") eqn:Hhtml;
    [destruct (open_write w "security-dashboard.json") eqn:Hjson|..];
    unfold raise; cbn [now_calls trace];
    rewrite <- ?app_assoc; cbn [app].
  1:{ split; [|split; [intros ? ? _ [=]|by intros r st' _ [|]]].
    intros st' [= <-]. do 2 (split; [done|]).
    match goal with
    | |- context [SecurityDashboard.JsonContent
                    {| SecurityDashboard.d_timestamp := _;
                       SecurityDashboard.d_audit_metrics := ?a;
                       SecurityDashboard.d_compliance_metrics := ?x |}] =>
        set (am := a); set (m := x)
    end.
    exists rows, am, m, h. split; [done|].
    split; [apply calculate_compliance_metrics_run|].
    repeat split; reflexivity. }
  all: split; [intros st' [=]|]; split; [intros ? ? _ [=]|].
  all: intros r st' [= <- <-] _; split; [done|].
  all: cbn [trace now_calls]; rewrite <- ?app_assoc; cbn [app].
  all: eexists; split; [reflexivity|].
  all: split; [intros ?????|first [by intros [] | intros _; split; [lia|intros ?]]].
  all: rewrite !elem_of_cons, elem_of_nil; intros H; by decompose [or] H.
Qed.

Lemma rate_threshold (c i t : nat) :
  Qle_bool (inject_nat c) (Spec.rate i (S t)) = true ↔ c * S t ≤ 100 * i.
Proof.
  rewrite Qle_bool_iff, rate_fraction. unfold Qle, inject_nat, inject_Z.
  cbn [Qnum Qden]. lia.
Qed.

(** X12. Each row of the HTML table stands for a layer with at least one
    control, and its colour class follows from its two counts: it is
    "compliant" when implemented is at least 90 percent of total,
    "warning" when at least 70 percent, "non-compliant" below that; a
    layer without an implemented control is always "non-compliant". *)
Theorem layer_row_classes (w : World) (self : SecurityDashboard.Self)
  (am : SecurityDashboard.AuditMetrics) (st : State SecurityDashboard.Event) :
  ∃ m h st',
    SecurityDashboard.calculate_compliance_metrics w self = Ok m ∧
    SecurityDashboard.generate_html_report w am m st = (Ok h, st') ∧
    ∀ r, r ∈ SecurityDashboard.h_rows h →
      let implemented := SecurityDashboard.r_implemented r in
      let total := SecurityDashboard.r_total r in
      1 ≤ total ∧ implemented ≤ total ∧
      SecurityDashboard.r_status_class r
      = (if decide (9 * total ≤ 10 * implemented) then "compliant"
         else if decide (7 * total ≤ 10 * implemented) then "warning"
         else "non-compliant") ∧
      (implemented = 0 → SecurityDashboard.r_status_class r = "non-compliant").
Proof.
  rewrite calculate_compliance_metrics_run. eexists _, _, _. split; [reflexivity|].
  rewrite generate_html_report_run. split; [reflexivity|].
  cbn [SecurityDashboard.h_rows SecurityDashboard.layer_metrics].
  intros r Hr. apply html_rows in Hr as [Hk ->].
  cbn [Spec.row_of SecurityDashboard.r_implemented SecurityDashboard.r_total
       SecurityDashboard.r_status_class SecurityDashboard.r_layer_num fst snd
       SecurityDashboard.l_implemented SecurityDashboard.l_total] in *.
  set (k := SecurityDashboard.r_layer_num r) in *.
  pose proof (rows_of_with_le w k "Implemented" (SecurityDashboard.checklist self)) as Hle.
  set (i := Spec.rows_of_with w k "Implemented" (SecurityDashboard.checklist self)) in *.
  destruct (Spec.rows_of k (SecurityDashboard.checklist self)) as [|t]; [done|].
  pose proof (rate_threshold 90 i t) as H90.
  pose proof (rate_threshold 70 i t) as H70.
  change (inject_nat 90) with 90%Q in H90. change (inject_nat 70) with 70%Q in H70.
  assert (Hclass :
    (if Qle_bool 90 (Spec.rate i (S t)) then "compliant"
     else if Qle_bool 70 (Spec.rate i (S t)) then "warning" else "non-compliant")
    = (if decide (9 * S t ≤ 10 * i) then "compliant"
       else if decide (7 * S t ≤ 10 * i) then "warning" else "non-compliant")).
  { destruct (Qle_bool 90 _) eqn:E90; destruct (Qle_bool 70 _) eqn:E70;
      repeat case_decide; try done; exfalso;
      rewrite <- ?not_true_iff_false in *; lia. }
  split; [lia|]. split; [done|]. split; [exact Hclass|].
  intros ->. rewrite Hclass. rewrite !decide_False by lia. done.
Qed.

Lemma rows_of_pos (k : cell) (rows : list SecurityDashboard.ControlRecord)
  (row : SecurityDashboard.ControlRecord) :
  row ∈ rows → Spec.dashboard_key row = k → 1 ≤ Spec.rows_of k rows.
Proof.
  unfold Spec.rows_of. intros Hin Hk.
  induction rows as [|row' rows IH]; [by apply elem_of_nil in Hin|].
  cbn [List.filter]. apply elem_of_cons in Hin as [<-|Hin].
  - rewrite bool_decide_true by done. cbn [length]. lia.
  - destruct (bool_decide _); cbn [length]; [lia|by apply IH].
Qed.

(** X13. When some row of the checklist has no column "Layer #", the HTML
    table has a row for the layer "Unknown", named "Unknown Layer", whose
    total counts the rows grouped under that key. *)
Theorem unlabelled_rows_layer (w : World) (self : SecurityDashboard.Self)
  (am : SecurityDashboard.AuditMetrics) (st : State SecurityDashboard.Event)
  (row : SecurityDashboard.ControlRecord) :
  row ∈ SecurityDashboard.checklist self →
  row !! "Layer #" = None →
  ∃ m h st' r,
    SecurityDashboard.calculate_compliance_metrics w self = Ok m ∧
    SecurityDashboard.generate_html_report w am m st = (Ok h, st') ∧
    r ∈ SecurityDashboard.h_rows h ∧
    SecurityDashboard.r_layer_num r = Some "Unknown" ∧
    SecurityDashboard.r_layer_name r = "Unknown Layer" ∧
    SecurityDashboard.r_total r
      = Spec.rows_of (Some "Unknown") (SecurityDashboard.checklist self) ∧
    1 ≤ SecurityDashboard.r_total r.
Proof.
  intros Hin Hnone.
  assert (Hkey : Spec.dashboard_key row = Some "Unknown").
  { unfold Spec.dashboard_key, dict_get. by rewrite Hnone. }
  pose proof (rows_of_pos _ _ _ Hin Hkey) as Hpos.
  rewrite calculate_compliance_metrics_run. eexists _, _, _.
  exists (Spec.row_of
            (Some "Unknown",
             {| SecurityDashboard.l_total :=
                  Spec.rows_of (Some "Unknown") (SecurityDashboard.checklist self);
                SecurityDashboard.l_implemented :=
                  Spec.rows_of_with w (Some "Unknown") "Implemented"
                    (SecurityDashboard.checklist self);
                SecurityDashboard.l_missing :=
                  Spec.rows_of_with w (Some "Unknown") "Missing"
                    (SecurityDashboard.checklist self) |})).
  split; [reflexivity|]. rewrite generate_html_report_run. split; [reflexivity|].
  cbn [SecurityDashboard.h_rows SecurityDashboard.layer_metrics].
  split.
  { apply html_rows. cbn [Spec.row_of SecurityDashboard.r_layer_num fst].
    split; [lia|done]. }
  cbn [Spec.row_of SecurityDashboard.r_layer_num SecurityDashboard.r_layer_name
       SecurityDashboard.r_total fst snd SecurityDashboard.l_total].
  repeat split; done.
Qed.

(** X13, instance: a checklist of two rows, the second without layer. *)
Lemma unlabelled_rows_layer_witness :
  Examples.row_unlabelled ∈ SecurityDashboard.checklist Examples.self_unlabelled ∧
  Examples.row_unlabelled !! "Layer #" = None ∧
  ∃ r, SecurityDashboard.r_layer_num r = Some "Unknown" ∧
       SecurityDashboard.r_layer_name r = "Unknown Layer" ∧
       SecurityDashboard.r_total r = 1.
Proof.
  assert (Hin : Examples.row_unlabelled
                ∈ SecurityDashboard.checklist Examples.self_unlabelled).
  { right. left. }
  split; [exact Hin|]. split; [reflexivity|].
  destruct (unlabelled_rows_layer Examples.w_abc Examples.self_unlabelled
              {| SecurityDashboard.timestamp := 0;
                 SecurityDashboard.vulnerabilities := ∅;
                 SecurityDashboard.compliance := ∅;
                 SecurityDashboard.dependencies := ∅;
                 SecurityDashboard.secrets := ∅ |}
              init Examples.row_unlabelled Hin)
    as (m & h & st' & r & _ & _ & _ & Hnum & Hname & Htotal & _).
  - reflexivity.
  - exists r. split; [exact Hnum|]. split; [exact Hname|].
    rewrite Htotal. reflexivity.
Defined.

Lemma dashboard_layer_step_sums (w : World) (m : gmap cell SecurityDashboard.LayerMetrics)
  (row : SecurityDashboard.ControlRecord) :
  let s := ComplianceReport.status (ComplianceReport.assess_control w row) in
  Spec.sum_layers SecurityDashboard.l_total (SecurityDashboard.layer_step w m row)
    = Spec.sum_layers SecurityDashboard.l_total m + 1 ∧
  Spec.sum_layers SecurityDashboard.l_implemented (SecurityDashboard.layer_step w m row)
    = Spec.sum_layers SecurityDashboard.l_implemented m
      + (if String.eqb s "Implemented" then 1 else 0) ∧
  Spec.sum_layers SecurityDashboard.l_missing (SecurityDashboard.layer_step w m row)
    = Spec.sum_layers SecurityDashboard.l_missing m
      + (if String.eqb s "Missing" then 1 else 0).
Proof.
  intros s. destruct (dashboard_branches w row) as [H1 H2]. cbv zeta in H1, H2.
  fold s in H1, H2. clearbody s.
  unfold SecurityDashboard.layer_step.
  set (k := dict_get row "Layer #" (Some "Unknown")).
  set (m1 := match m !! k with
             | None => <[k := SecurityDashboard.new_layer]> m
             | Some _ => m
             end).
  assert (Hsome : is_Some (m1 !! k)).
  { unfold m1. destruct (m !! k) eqn:Hm; [by rewrite Hm|].
    rewrite lookup_insert_eq. eauto. }
  assert (Hsum : ∀ field, field SecurityDashboard.new_layer = 0 →
            Spec.sum_layers field m1 = Spec.sum_layers field m).
  { intros field Hf. unfold m1. destruct (m !! k) eqn:Hm; [done|].
    rewrite sum_layers_insert by done. by rewrite Hf. }
  rewrite <- (Hsum SecurityDashboard.l_total), <- (Hsum SecurityDashboard.l_implemented),
    <- (Hsum SecurityDashboard.l_missing) by done.
  set (m2 := alter SecurityDashboard.incr_total k m1).
  assert (Hsome2 : is_Some (m2 !! k)).
  { unfold m2. rewrite lookup_alter_eq. destruct Hsome as [x ->]. eauto. }
  assert (Ht : Spec.sum_layers SecurityDashboard.l_total m2
               = Spec.sum_layers SecurityDashboard.l_total m1 + 1)
    by (apply sum_layers_alter; done).
  assert (Hi : Spec.sum_layers SecurityDashboard.l_implemented m2
               = Spec.sum_layers SecurityDashboard.l_implemented m1 + 0)
    by (apply sum_layers_alter; done).
  assert (Hm : Spec.sum_layers SecurityDashboard.l_missing m2
               = Spec.sum_layers SecurityDashboard.l_missing m1 + 0)
    by (apply sum_layers_alter; done).
  rewrite H1 in H2. rewrite H1. clear H1.
  destruct (String.eqb_spec s "Implemented") as [He|Hne].
  - rewrite He.
    rewrite (sum_layers_alter SecurityDashboard.l_total _ k m2 0),
      (sum_layers_alter SecurityDashboard.l_implemented _ k m2 1),
      (sum_layers_alter SecurityDashboard.l_missing _ k m2 0) by done.
    change (String.eqb "Implemented" "Missing") with false. cbv iota. lia.
  - cbv iota in H2. rewrite H2. destruct (String.eqb s "Missing").
    + rewrite (sum_layers_alter SecurityDashboard.l_total _ k m2 0),
        (sum_layers_alter SecurityDashboard.l_implemented _ k m2 0),
        (sum_layers_alter SecurityDashboard.l_missing _ k m2 1) by done.
      lia.
    + lia.
Qed.

(** X14. In the metrics of the dashboard the layer totals add up to the
    number of controls, the layer implemented counts to the implemented
    controls and the layer missing counts to the missing controls; every
    layer entry stands for at least one control, and its implemented and
    missing counts together do not exceed its total. *)
Theorem dashboard_layer_sums (w : World) (self : SecurityDashboard.Self) :
  ∃ m,
    SecurityDashboard.calculate_compliance_metrics w self = Ok m ∧
    Spec.sum_layers SecurityDashboard.l_total (SecurityDashboard.layer_metrics m)
      = SecurityDashboard.total_controls m ∧
    Spec.sum_layers SecurityDashboard.l_implemented (SecurityDashboard.layer_metrics m)
      = SecurityDashboard.implemented_controls m ∧
    Spec.sum_layers SecurityDashboard.l_missing (SecurityDashboard.layer_metrics m)
      = SecurityDashboard.missing_controls m ∧
    SecurityDashboard.implemented_controls m + SecurityDashboard.missing_controls m
      ≤ SecurityDashboard.total_controls m ∧
    (∀ k lm, SecurityDashboard.layer_metrics m !! k = Some lm →
       1 ≤ SecurityDashboard.l_total lm ∧
       SecurityDashboard.l_implemented lm + SecurityDashboard.l_missing lm
         ≤ SecurityDashboard.l_total lm).
Proof.
  rewrite calculate_compliance_metrics_run. eexists. split; [reflexivity|].
  cbn [SecurityDashboard.total_controls SecurityDashboard.implemented_controls
       SecurityDashboard.missing_controls SecurityDashboard.layer_metrics].
  generalize (SecurityDashboard.checklist self). intros rows.
  assert (Hsums :
    Spec.sum_layers SecurityDashboard.l_total
      (fold_left (SecurityDashboard.layer_step w) rows ∅) = length rows ∧
    Spec.sum_layers SecurityDashboard.l_implemented
      (fold_left (SecurityDashboard.layer_step w) rows ∅)
      = Spec.with_status "Implemented" (ComplianceReport.assess_control w <$> rows) ∧
    Spec.sum_layers SecurityDashboard.l_missing
      (fold_left (SecurityDashboard.layer_step w) rows ∅)
      = Spec.with_status "Missing" (ComplianceReport.assess_control w <$> rows)).
  { induction rows as [|row rows (IH1 & IH2 & IH3)] using rev_ind.
    - simpl. by rewrite !sum_layers_empty.
    - rewrite fold_left_app. cbn [fold_left].
      destruct (dashboard_layer_step_sums w
                  (fold_left (SecurityDashboard.layer_step w) rows ∅) row)
        as (-> & -> & ->).
      rewrite fmap_app.
      change (ComplianceReport.assess_control w <$> [row])
        with [ComplianceReport.assess_control w row].
      rewrite !with_status_snoc, length_app, IH1, IH2, IH3. done. }
  destruct Hsums as (-> & -> & ->). do 3 (split; [done|]). split.
  - pose proof (valid_total (ComplianceReport.assess_control w <$> rows)) as Hv.
    rewrite length_fmap in Hv. apply Nat.le_trans with
      (Spec.with_status "Implemented" (ComplianceReport.assess_control w <$> rows)
       + Spec.with_status "Missing" (ComplianceReport.assess_control w <$> rows)
       + Spec.with_status "Not Applicable" (ComplianceReport.assess_control w <$> rows));
      [lia|].
    rewrite Hv; [done|]. apply Forall_fmap, Forall_forall.
    intros row _. apply assess_control_valid.
  - intros k lm. rewrite layer_metrics_lookup. case_decide; [done|].
    intros [= <-]. cbn [SecurityDashboard.l_total SecurityDashboard.l_implemented
                        SecurityDashboard.l_missing].
    split; [lia|].
    assert (Spec.rows_of_with w k "Implemented" rows
            + Spec.rows_of_with w k "Missing" rows ≤ Spec.rows_of k rows); [|done].
    unfold Spec.rows_of_with, Spec.rows_of. clear.
    induction rows as [|row rows IH]; [done|]. cbn [List.filter].
    destruct (bool_decide _); cbn [andb]; [|done].
    destruct (String.eqb_spec
                (ComplianceReport.status (ComplianceReport.assess_control w row))
                "Implemented") as [->|?]; cbn [String.eqb Ascii.eqb Bool.eqb length];
      [lia|].
    destruct (String.eqb _ "Missing"); cbn [length]; lia.
Qed.

(** X15. A checklist in which no row has an artifact (the empty checklist
    included): every control is not applicable, nothing is implemented or
    missing, the report's rate is 0 and its text report lists no missing
    control; the dashboard counts all rows in its total and reports a rate
    equal to 0 as well. *)
Theorem checklist_without_artifacts {E} (w : World) (self : SecurityDashboard.Self)
  (st : State E) :
  Forall (λ row, truthy (dict_get row "Policy/Config Artifact" (Some "")) = false)
    (SecurityDashboard.checklist self) →
  ∃ s st' tr m,
    ComplianceReport.generate_summary w
      (ComplianceReport.assess_control w <$> SecurityDashboard.checklist self) st
      = (Ok s, st') ∧
    ComplianceReport.generate_text_report
      (ComplianceReport.assess_control w <$> SecurityDashboard.checklist self) s = Ok tr ∧
    SecurityDashboard.calculate_compliance_metrics w self = Ok m ∧
    ComplianceReport.implemented s = 0 ∧ ComplianceReport.missing s = 0 ∧
    ComplianceReport.not_applicable s = length (SecurityDashboard.checklist self) ∧
    ComplianceReport.applicable s = 0 ∧
    ComplianceReport.compliance_rate s = 0%Q ∧
    ComplianceReport.t_missing_controls tr = [] ∧
    SecurityDashboard.implemented_controls m = 0 ∧
    SecurityDashboard.missing_controls m = 0 ∧
    SecurityDashboard.total_controls m = length (SecurityDashboard.checklist self) ∧
    (SecurityDashboard.compliance_rate m == 0)%Q.
Proof.
  intros Hrows.
  set (rows := SecurityDashboard.checklist self) in *.
  assert (Hstatus : ∀ s, s ≠ "Not Applicable" →
            List.filter (λ a, String.eqb (ComplianceReport.status a) s)
              (ComplianceReport.assess_control w <$> rows) = []).
  { intros s Hs. induction Hrows as [|row rows' Hrow _ IH]; [done|].
    rewrite fmap_cons. cbn [List.filter]. rewrite IH.
    destruct (assess_control_cases w row)
      as [(_ & -> & _) | [(Hne & _) | (Hne & _)]].
    - destruct (String.eqb_spec "Not Applicable" s); [congruence|done].
    - apply truthy_false in Hrow. by destruct Hne.
    - apply truthy_false in Hrow. by destruct Hne. }
  assert (Hi : Spec.with_status "Implemented" (ComplianceReport.assess_control w <$> rows) = 0).
  { unfold Spec.with_status. by rewrite Hstatus. }
  assert (Hm : Spec.with_status "Missing" (ComplianceReport.assess_control w <$> rows) = 0).
  { unfold Spec.with_status. by rewrite Hstatus. }
  assert (Hn : Spec.with_status "Not Applicable" (ComplianceReport.assess_control w <$> rows)
               = length rows).
  { pose proof (valid_total (ComplianceReport.assess_control w <$> rows)) as Hv.
    rewrite Hi, Hm, length_fmap in Hv. apply Hv.
    apply Forall_fmap, Forall_forall. intros row _. apply assess_control_valid. }
  rewrite generate_summary_run. eexists _, _, _, _. split; [reflexivity|].
  rewrite generate_text_report_run. split; [reflexivity|].
  rewrite calculate_compliance_metrics_run. split; [reflexivity|].
  cbn [ComplianceReport.implemented ComplianceReport.missing
       ComplianceReport.not_applicable ComplianceReport.applicable
       ComplianceReport.compliance_rate ComplianceReport.t_missing_controls
       SecurityDashboard.implemented_controls SecurityDashboard.missing_controls
       SecurityDashboard.total_controls SecurityDashboard.compliance_rate].
  fold rows. rewrite Hi, Hm, Hn, Hstatus by done.
  repeat split; try done.
  destruct (length rows) as [|n]; [done|]. by rewrite rate_fraction.
Qed.

(** X15, instance: the checklist with the single control without artifact. *)
Lemma checklist_without_artifacts_witness :
  Forall (λ row, truthy (dict_get row "Policy/Config Artifact" (Some "")) = false)
    [Examples.row_a] ∧
  ∃ m, SecurityDashboard.calculate_compliance_metrics Examples.w_abc
         {| SecurityDashboard.checklist_file := "security_layers_checklist.csv";
            SecurityDashboard.checklist := [Examples.row_a] |} = Ok m ∧
       SecurityDashboard.total_controls m = 1 ∧
       (SecurityDashboard.compliance_rate m == 0)%Q.
Proof.
  assert (H : Forall (λ row, truthy (dict_get row "Policy/Config Artifact" (Some ""))
                             = false) [Examples.row_a]).
  { repeat constructor. }
  split; [exact H|].
  destruct (checklist_without_artifacts (E := ComplianceReport.Event) Examples.w_abc
              {| SecurityDashboard.checklist_file := "security_layers_checklist.csv";
                 SecurityDashboard.checklist := [Examples.row_a] |} init H)
    as (s & st' & tr & m & _ & _ & Hm & _ & _ & _ & _ & _ & _ & _ & _ & Ht & Hr).
  exists m. split; [exact Hm|]. split; [exact Ht|exact Hr].
Defined.

End DashboardScript.
